(** * Web3 wallet component: session logic and chain-data aggregation

    A shallow embedding of the React component [Web3Wallet]
    (the `'use client'` page of the repository): its four pieces of
    component state, the calls it makes to the injected wallet provider
    ([window.ethereum.request]) and to the transaction-history service
    ([fetch]), and the functions [fetchTransactions], [checkWalletConnection],
    [connectWallet], [disconnectWallet], [refreshWalletData],
    [fetchTokenBalances] and [getNetworkName].

    Asynchronous functions are embedded as computations in a state and
    exception monad: every [await] is a sequencing point, a rejected promise
    is a thrown value, and [try]/[catch]/[finally] are combinators.  What the
    outside world answers (the wallet, the HTTP service, the clock, the
    environment variable) is a parameter of the development. *)

From Stdlib Require Import ZArith Lia Sorted Ascii String.
From stdpp Require Import base strings list gmap pretty sorting.

#[local] Set Warnings "-register-all".

Local Open Scope string_scope.
Local Open Scope list_scope.
Local Open Scope Z_scope.

(** ** JavaScript values *)

(** A number produced by [parseInt], which is a double: [NaN], an integer
    (given by its exact value, so only integers that are doubles occur), or
    an infinity.  The two zeros are not told apart: the component prints
    numbers, compares them and tests them for truth, and both zeros print as
    "0", are equal and are falsy. *)
Inductive JsNum : Type :=
| NaN
| Int (z : Z)
| Infinite (negative : bool).

(** The double nearest to a natural number [n], a tie going to the even
    significand of 53 bits; [None] when that is beyond the largest double,
    where the number rounds to infinity. *)
Definition roundToDouble (n : Z) : option Z :=
  let excess := Z.log2 n - 52 in
  if excess <=? 0 then Some n
  else
    let unit := 2 ^ excess in
    let q := n / unit in
    let r := n mod unit in
    let q' := if (unit <? 2 * r) || ((2 * r =? unit) && Z.odd q) then q + 1 else q in
    if 2 ^ 1024 <=? q' * unit then None else Some (q' * unit).

(** The Number value of a mathematical integer. *)
Definition numberOf (z : Z) : JsNum :=
  match roundToDouble (Z.abs z) with
  | Some m => Int (if z <? 0 then - m else m)
  | None => Infinite (z <? 0)
  end.

(** A value obtained from [response.json()], or by reading a property of
    one.  A JSON number is carried as the text JavaScript prints for it
    ([Number.prototype.toString]); an object is the list of its properties,
    the first binding of a name being the property's value.  A string is the
    sequence of its code units, each below 256 (the texts handled here,
    addresses, hashes and quantities, are ASCII). *)
Inductive JsVal : Type :=
| JUndefined
| JNull
| JBool (b : bool)
| JNum (text : string)
| JStr (s : string)
| JArr (items : list JsVal)
| JObj (props : list (string * JsVal)).

(** What can be thrown, or given as the reason of a rejected promise:
    an instance of [Error] (with its [message]), or any other value. *)
Inductive Thrown : Type :=
| ErrorObj (message : string)
| NonError (v : JsVal).

(** Truthiness, as [if], [&&], [||] and [!] test it. *)
Definition truthy (v : JsVal) : bool :=
  match v with
  | JUndefined | JNull => false
  | JBool b => b
  | JNum text => negb (String.eqb text "0")
  | JStr s => negb (String.eqb s "")
  | JArr _ | JObj _ => true
  end.

(** [v === s] for a string literal [s]. *)
Definition strictEqStr (v : JsVal) (s : string) : bool :=
  match v with
  | JStr s' => String.eqb s' s
  | _ => false
  end.

Fixpoint lookupProp (name : string) (props : list (string * JsVal)) : JsVal :=
  match props with
  | [] => JUndefined
  | (k, v) :: rest => if String.eqb k name then v else lookupProp name rest
  end.

(** [v.name] for the data properties the component reads ([status],
    [result], [hash], [from], ...): reading a property of [null] or
    [undefined] is a [TypeError] ([None]); an object yields its own property
    or [undefined]; none of these names is defined on a number, a boolean, a
    string or an array. *)
Definition getProp (v : JsVal) (name : string) : option JsVal :=
  match v with
  | JUndefined | JNull => None
  | JObj props => Some (lookupProp name props)
  | _ => Some JUndefined
  end.

Definition joinWith (sep : string) (parts : list string) : string :=
  match parts with
  | [] => ""
  | p :: rest => foldl (fun acc q => acc +:+ sep +:+ q) p rest
  end.

(** The object has a property of that name of its own. *)
Definition hasOwn (name : string) (props : list (string * JsVal)) : bool :=
  existsb (fun kv => String.eqb kv.1 name) props.

(** [ToString]: the conversion that [parseInt] and a template literal
    apply; [None] when it raises a [TypeError].  An array prints its items
    joined by commas, [null] and [undefined] as the empty string.  An object
    prints as "[object Object]" through [Object.prototype.toString], unless
    it has a [toString] property of its own: in a value read from JSON that
    property is no function, [valueOf] gives back the object, and the
    conversion raises. *)
Fixpoint toStr (v : JsVal) : option string :=
  match v with
  | JUndefined => Some "undefined"
  | JNull => Some "null"
  | JBool true => Some "true"
  | JBool false => Some "false"
  | JNum text => Some text
  | JStr s => Some s
  | JArr items =>
      option_map (joinWith ",")
        ((fix each (l : list JsVal) : option (list string) :=
            match l with
            | [] => Some []
            | item :: rest =>
                match match item with
                      | JUndefined | JNull => Some ""
                      | _ => toStr item
                      end, each rest with
                | Some s, Some ss => Some (s :: ss)
                | _, _ => None
                end
            end) items)
  | JObj props => if hasOwn "toString" props then None else Some "[object Object]"
  end.

(** ** [parseInt] *)

(** White space and line terminators, which [parseInt] skips: of the code
    units below 256 these are TAB, LF, VT, FF, CR, the space and the
    no-break space. *)
Definition isWhiteSpace (c : ascii) : bool :=
  let n := N_of_ascii c in
  ((9 <=? n) && (n <=? 13) || (n =? 32) || (n =? 160))%N.

Fixpoint trimStart (s : string) : string :=
  match s with
  | String c rest => if isWhiteSpace c then trimStart rest else s
  | EmptyString => s
  end.

(** The value of a character as a digit: [0-9], then [a-z] or [A-Z] for
    10 to 35. *)
Definition digitValue (c : ascii) : option Z :=
  let n := Z.of_N (N_of_ascii c) in
  if (48 <=? n) && (n <=? 57) then Some (n - 48)
  else if (97 <=? n) && (n <=? 122) then Some (n - 87)
  else if (65 <=? n) && (n <=? 90) then Some (n - 55)
  else None.

(** The longest prefix of [s] made of digits of radix [R], read as a
    number; [acc] is what has been read so far ([None]: no digit yet). *)
Fixpoint readDigits (R : Z) (s : string) (acc : option Z) : option Z :=
  match s with
  | EmptyString => acc
  | String c rest =>
      match digitValue c with
      | Some d =>
          if d <? R then readDigits R rest (Some (R * default 0 acc + d))
          else acc
      | None => acc
      end
  end.

Definition hasHexPrefix (s : string) : bool :=
  match s with
  | String "0" (String c _) => Ascii.eqb c "x" || Ascii.eqb c "X"
  | _ => false
  end.

(** [s.slice(n)] *)
Fixpoint dropChars (n : nat) (s : string) : string :=
  match n, s with
  | O, _ => s
  | S n', String _ rest => dropChars n' rest
  | S _, EmptyString => EmptyString
  end.

(** [parseInt(s, radix)]; [radix = None] is the call with one argument.
    The component passes 16 or nothing, and in both cases a [0x] prefix is
    stripped and selects radix 16.  The digits are read as a mathematical
    integer, and the result is its Number value.  (For radix 10 the language
    lets an engine ignore the digits after the twentieth; the exact value is
    taken here.) *)
Definition parseInt (s : string) (radix : option Z) : JsNum :=
  let s := trimStart s in
  let '(negative, s) :=
    match s with
    | String "-" rest => (true, rest)
    | String "+" rest => (false, rest)
    | _ => (false, s)
    end in
  let stripPrefix :=
    match radix with
    | None => true
    | Some R => R =? 16
    end in
  let '(R, s) :=
    if stripPrefix && hasHexPrefix s then (16, dropChars 2 s)
    else (default 10 radix, s) in
  match readDigits R s None with
  | None => NaN
  | Some n => numberOf (if negative : bool then - n else n)
  end.

(** ** The JavaScript engine

    Three things the engine computes are taken as parameters: the text of a
    scaled number, which is IEEE-754 double arithmetic followed by
    [Number.prototype.toFixed]; the text of an integer in a template literal,
    known here up to 2^53, where it is the decimal numeral; and the wording
    of a [TypeError], which differs between engines. *)
Class Engine : Type := {
  (** [(x / Math.pow(10, e)).toFixed(d)] *)
  quotToFixed : JsNum -> nat -> nat -> string;
  (** [String(x)] for a double [x] that is an integer *)
  intToString : Z -> string;
  (** the [message] of the [TypeError] raised by evaluating an expression *)
  typeErrorMessage : string -> string;
  (** up to 2^53 an integer prints as its decimal numeral *)
  intToString_safe : forall z : Z, Z.abs z <= 2 ^ 53 -> intToString z = pretty z
}.

(** [x / Math.pow(10, e) > 0].  [Math.pow(10, e)] is finite exactly when
    [e <= 308]; a number that is at least 1 divided by it is then a positive
    double (at least 1e-308), while from [e = 309] on the divisor is
    [Infinity] and the quotient is 0 or [NaN].  [NaN], zero and negative
    numbers never compare greater than 0. *)
Definition quotPositive (x : JsNum) (e : nat) : bool :=
  match x with
  | NaN => false
  | Int z => (0 <? z) && (e <=? 308)%nat
  | Infinite negative => negb negative && (e <=? 308)%nat
  end.

(** ** Data model *)

Record WalletState : Type := {
  isConnected : bool;
  address : option string;
  balance : option string;
  network : option string;
  chainId : option JsNum;
  isLoading : bool;
  error : option string
}.

Inductive TxStatus : Type := success | pending | failed.

(** The fields copied from the service's record ([hash], [from], [to],
    [gasUsed]) hold whatever value the payload had there. *)
Record Transaction : Type := {
  hash : JsVal;
  from : JsVal;
  to : JsVal;
  value : string;
  gasUsed : JsVal;
  gasPrice : string;
  blockNumber : JsNum;
  timestamp : JsNum;
  status : TxStatus
}.

Record TokenBalance : Type := {
  symbol : string;
  tb_balance : string;
  decimals : nat;
  contractAddress : string
}.

(** An entry of the token catalog. *)
Record Token : Type := {
  tk_symbol : string;
  tk_contractAddress : string;
  tk_decimals : nat
}.

(** ** The wallet provider and the history service *)

(** The argument of [window.ethereum.request]: the method with its
    [params]. *)
Inductive Request : Type :=
| eth_accounts
| eth_requestAccounts
| eth_chainId
| eth_getBalance (owner block : string)
| eth_call (callTo callData block : string).

(** What a request resolves to: a string (a hex quantity or byte string) or
    a list of strings (accounts), which are the shapes the methods used are
    specified to return.  The provider is declared to return [any]; the
    component uses a reply through [.length], [[0]] and [parseInt], which are
    defined on both shapes.  Replies of another shape ([null], a number, an
    object, a list holding something else than strings) are not covered: the
    properties below are about wallets that answer with these two shapes. *)
Inductive RpcValue : Type :=
| RText (s : string)
| RList (l : list string).

Inductive Reply : Type :=
| Resolve (v : RpcValue)
| Reject (e : Thrown).

(** The provider answers a request knowing the requests made before it
    (oldest first). *)
Definition Provider : Type := list Request -> Request -> Reply.

(** [response.json()]: rejects when the body is not JSON. *)
Inductive Body : Type :=
| BodyInvalid (e : Thrown)
| BodyJson (data : JsVal).

(** [fetch(url)]: rejects (network error), or resolves to a response with
    its [ok] flag and body. *)
Inductive FetchResult : Type :=
| FetchRejects (e : Thrown)
| FetchResponse (ok : bool) (body : Body).

(** The page's surroundings. *)
Class Browser : Type := {
  (** [window.ethereum], when a wallet extension has injected it *)
  ethereum : option Provider;
  fetch : string -> FetchResult;
  (** [process.env.NEXT_PUBLIC_ETHERSCAN_API_KEY] *)
  etherscanApiKey : option string;
  (** [Date.now()], in milliseconds: a time value, which is an integer of
      magnitude at most 8.64e15 *)
  dateNow : Z;
  dateNow_time : Z.abs dateNow <= 8640000000000000
}.

Inductive ToastKind : Type := ToastSuccess | ToastError | ToastInfo.

(** The component's state (the four [useState] cells) together with the
    record of what the component has asked of the outside: provider requests,
    fetched URLs and toasts, each oldest first.  [console] output is not
    recorded. *)
Record Store : Type := {
  walletState : WalletState;
  tokenBalances : list TokenBalance;
  transactions : list Transaction;
  isRefreshing : bool;
  requests : list Request;
  fetched : list string;
  toasts : list (ToastKind * string)
}.

(** The initial values given to [useState]. *)
Definition defaultWalletState : WalletState :=
  {| isConnected := false; address := None; balance := None; network := None;
     chainId := None; isLoading := false; error := None |}.

Definition initialStore : Store :=
  {| walletState := defaultWalletState; tokenBalances := []; transactions := [];
     isRefreshing := false; requests := []; fetched := []; toasts := [] |}.

(** ** The monad of asynchronous component code *)

Inductive Result (A : Type) : Type :=
| Ok (a : A)
| Throw (e : Thrown).
Arguments Ok {A} a.
Arguments Throw {A} e.

Definition M (A : Type) : Type := Store -> Result A * Store.

Definition ret {A} (a : A) : M A := fun st => (Ok a, st).

Definition throw {A} (e : Thrown) : M A := fun st => (Throw e, st).

Definition bind {A B} (m : M A) (k : A -> M B) : M B :=
  fun st =>
    match m st with
    | (Ok a, st') => k a st'
    | (Throw e, st') => (Throw e, st')
    end.

Notation "'let*' x ':=' m 'in' k" := (bind m (fun x => k))
  (at level 10, x name, m at level 100, k at level 200).

(** [try { body } catch (error) { handler }] *)
Definition tryCatch {A} (body : M A) (handler : Thrown -> M A) : M A :=
  fun st =>
    match body st with
    | (Ok a, st') => (Ok a, st')
    | (Throw e, st') => handler e st'
    end.

(** [try { body } catch (error) { handler } finally { final }] *)
Definition tryCatchFinally {A} (body : M A) (handler : Thrown -> M A)
    (final : M unit) : M A :=
  fun st =>
    let '(r, st') := tryCatch body handler st in
    match final st' with
    | (Ok _, st'') => (r, st'')
    | (Throw e, st'') => (Throw e, st'')
    end.

Definition setWalletState (f : WalletState -> WalletState) : M unit :=
  fun st =>
    (Ok tt,
     {| walletState := f (walletState st); tokenBalances := tokenBalances st;
        transactions := transactions st; isRefreshing := isRefreshing st;
        requests := requests st; fetched := fetched st; toasts := toasts st |}).

Definition setTokenBalances (l : list TokenBalance) : M unit :=
  fun st =>
    (Ok tt,
     {| walletState := walletState st; tokenBalances := l;
        transactions := transactions st; isRefreshing := isRefreshing st;
        requests := requests st; fetched := fetched st; toasts := toasts st |}).

Definition setTransactions (l : list Transaction) : M unit :=
  fun st =>
    (Ok tt,
     {| walletState := walletState st; tokenBalances := tokenBalances st;
        transactions := l; isRefreshing := isRefreshing st;
        requests := requests st; fetched := fetched st; toasts := toasts st |}).

Definition setIsRefreshing (b : bool) : M unit :=
  fun st =>
    (Ok tt,
     {| walletState := walletState st; tokenBalances := tokenBalances st;
        transactions := transactions st; isRefreshing := b;
        requests := requests st; fetched := fetched st; toasts := toasts st |}).

Definition toast (kind : ToastKind) (message : string) : M unit :=
  fun st =>
    (Ok tt,
     {| walletState := walletState st; tokenBalances := tokenBalances st;
        transactions := transactions st; isRefreshing := isRefreshing st;
        requests := requests st; fetched := fetched st;
        toasts := (toasts st ++ [(kind, message)])%list |}).

Definition logRequest (r : Request) (st : Store) : Store :=
  {| walletState := walletState st; tokenBalances := tokenBalances st;
     transactions := transactions st; isRefreshing := isRefreshing st;
     requests := (requests st ++ [r])%list; fetched := fetched st; toasts := toasts st |}.

Definition logFetch (url : string) (st : Store) : Store :=
  {| walletState := walletState st; tokenBalances := tokenBalances st;
     transactions := transactions st; isRefreshing := isRefreshing st;
     requests := requests st; fetched := (fetched st ++ [url])%list; toasts := toasts st |}.

Definition getWalletState : M WalletState := fun st => (Ok (walletState st), st).

Fixpoint mapM {A B} (f : A -> M B) (l : list A) : M (list B) :=
  match l with
  | [] => ret []
  | x :: rest =>
      let* y := f x in
      let* ys := mapM f rest in
      ret (y :: ys)
  end.

(** ** String helpers *)

Fixpoint repeatChar (c : ascii) (n : nat) : string :=
  match n with
  | O => EmptyString
  | S n' => String c (repeatChar c n')
  end.

(** [s.padStart(n, c)] for a one-character pad [c]. *)
Definition padStart (n : nat) (c : ascii) (s : string) : string :=
  repeatChar c (n - String.length s) +:+ s.

(** [a || d] where [a] is a string or [undefined]. *)
Definition orElse (a : option string) (d : string) : string :=
  match a with
  | Some s => if String.eqb s "" then d else s
  | None => d
  end.

(** Replies of the provider, as the component reads them. *)

(** [v.length] *)
Definition rpcLength (v : RpcValue) : nat :=
  match v with
  | RText s => String.length s
  | RList l => List.length l
  end.

(** [v[0]]; [None] is [undefined]. *)
Definition rpcFirst (v : RpcValue) : option string :=
  match v with
  | RText (String c _) => Some (String c EmptyString)
  | RText EmptyString => None
  | RList l => head l
  end.

(** [ToString], applied by [parseInt]. *)
Definition rpcToStr (v : RpcValue) : string :=
  match v with
  | RText s => s
  | RList l => joinWith "," l
  end.

(** ** The component *)

(** The [networks] table of [getNetworkName]. *)
Definition networkTable : list (Z * string) :=
  [ (1, "Ethereum Mainnet");
    (3, "Ropsten Testnet");
    (4, "Rinkeby Testnet");
    (5, "Goerli Testnet");
    (11155111, "Sepolia Testnet");
    (137, "Polygon Mainnet");
    (80001, "Mumbai Testnet");
    (56, "BSC Mainnet");
    (97, "BSC Testnet");
    (42161, "Arbitrum One");
    (10, "Optimism") ].

Definition networks : gmap Z string := list_to_map networkTable.

(** [networks[chainId]]: the key of a number is its text, and the keys of
    the table are decimal integers, so [NaN] and the infinities name no
    entry. *)
Definition networksAt (chainId : JsNum) : option string :=
  match chainId with
  | Int z => networks !! z
  | NaN | Infinite _ => None
  end.

(** The [tokens] list of [fetchTokenBalances]. *)
Definition tokens : list Token :=
  [ {| tk_symbol := "USDC";
       tk_contractAddress := "0xA0b86a33E6417c5c7c4c4c4c4c4c4c4c4c4c4c4c";
       tk_decimals := 6 |};
    {| tk_symbol := "USDT";
       tk_contractAddress := "0xdAC17F958D2ee523a2206206994597C13D831ec7";
       tk_decimals := 6 |};
    {| tk_symbol := "DAI";
       tk_contractAddress := "0x6B175474E89094C44Da98b954EedeAC495271d0F";
       tk_decimals := 18 |} ].

(** The call data of [balanceOf(address)]. *)
Definition balanceOfCallData (address : string) : string :=
  "0x70a08231" +:+ padStart 64 "0" (dropChars 2 address).

Section Component.
Context `{Engine} `{Browser}.

(** [`${n}`] for a number. *)
Definition numToString (n : JsNum) : string :=
  match n with
  | NaN => "NaN"
  | Int z => intToString z
  | Infinite negative => if negative then "-Infinity" else "Infinity"
  end.

Definition getNetworkName (chainId : JsNum) : string :=
  orElse (networksAt chainId)
    ("Unknown Network (Chain ID: " +:+ numToString chainId +:+ ")").

(** [error instanceof Error ? error.message : fallback] *)
Definition messageOf (error : Thrown) (fallback : string) : string :=
  match error with
  | ErrorObj message => message
  | NonError _ => fallback
  end.

(** [await window.ethereum.request(r)].  Without an injected provider,
    reading [request] of [undefined] raises a [TypeError] and nothing is
    sent. *)
Definition request (r : Request) : M RpcValue :=
  fun st =>
    match ethereum with
    | None => (Throw (ErrorObj (typeErrorMessage "window.ethereum.request")), st)
    | Some provider =>
        match provider (requests st) r with
        | Resolve v => (Ok v, logRequest r st)
        | Reject e => (Throw e, logRequest r st)
        end
    end.

(** [await fetch(url)] *)
Definition fetchUrl (url : string) : M (bool * Body) :=
  fun st =>
    match fetch url with
    | FetchRejects e => (Throw e, logFetch url st)
    | FetchResponse ok body => (Ok (ok, body), logFetch url st)
    end.

(** [await response.json()] *)
Definition json (body : Body) : M JsVal :=
  match body with
  | BodyInvalid e => throw e
  | BodyJson data => ret data
  end.

(** [v.name], raising the [TypeError] of [getProp]. *)
Definition prop (v : JsVal) (name : string) : M JsVal :=
  match getProp v name with
  | Some x => ret x
  | None => throw (ErrorObj (typeErrorMessage name))
  end.

(** [v.slice(0, n).map(f)].  Only an array has both methods: a string has
    no [map], and no other JSON value has a [slice] that can be called. *)
Definition sliceMap {A} (v : JsVal) (n : nat) (f : JsVal -> M A) : M (list A) :=
  match v with
  | JArr items => mapM f (take n items)
  | _ => throw (ErrorObj (typeErrorMessage "slice(0, 10).map"))
  end.

(** [parseInt(v)] for a value of the payload: the value is converted to a
    string first, which may raise. *)
Definition parseIntOf (v : JsVal) : M JsNum :=
  match toStr v with
  | Some s => ret (parseInt s None)
  | None => throw (ErrorObj (typeErrorMessage "parseInt"))
  end.

(** The arrow function mapped over the service's records; the properties
    of the new object are evaluated in the order they are written. *)
Definition formatTransaction (tx : JsVal) : M Transaction :=
  let* tx_hash := prop tx "hash" in
  let* tx_from := prop tx "from" in
  let* tx_to := prop tx "to" in
  let* tx_value := prop tx "value" in
  let* valueWei := parseIntOf tx_value in
  let* tx_gasUsed := prop tx "gasUsed" in
  let* tx_gasPrice := prop tx "gasPrice" in
  let* gasPriceWei := parseIntOf tx_gasPrice in
  let* tx_blockNumber := prop tx "blockNumber" in
  let* blockNumber' := parseIntOf tx_blockNumber in
  let* tx_timeStamp := prop tx "timeStamp" in
  let* timestamp' := parseIntOf tx_timeStamp in
  let* tx_isError := prop tx "isError" in
  ret {| hash := tx_hash;
         from := tx_from;
         to := tx_to;
         value := quotToFixed valueWei 18 6;
         gasUsed := tx_gasUsed;
         gasPrice := quotToFixed gasPriceWei 9 2;
         blockNumber := blockNumber';
         timestamp := timestamp';
         status := if strictEqStr tx_isError "0" then success else failed |}.

(** The placeholder list of the [catch] block.  [Date.now() - 3600000] is
    computed exactly: both numbers and their difference are integers below
    2^53. *)
Definition mockTransactions (address : string) : list Transaction :=
  [ {| hash := JStr "0x1234567890abcdef1234567890abcdef12345678";
       from := JStr address;
       to := JStr "0x9876543210fedcba9876543210fedcba98765432";
       value := "0.123456";
       gasUsed := JStr "21000";
       gasPrice := "20.5";
       blockNumber := Int 12345678;
       timestamp := Int (dateNow - 3600000);
       status := success |} ].

Definition historyUrl (address : string) : string :=
  let apiKey := orElse etherscanApiKey "demo" in
  "https://api.etherscan.io/api?module=account&action=txlist&address="
    +:+ address +:+ "&sort=desc&apikey=" +:+ apiKey.

Definition fetchTransactions (address : string) : M unit :=
  tryCatch
    (let* response := fetchUrl (historyUrl address) in
     let '(ok, body) := response in
     if ok : bool then
       let* data := json body in
       let* data_status := prop data "status" in
       if strictEqStr data_status "1" then
         let* data_result := prop data "result" in
         if truthy data_result then
           let* formattedTransactions := sliceMap data_result 10 formatTransaction in
           setTransactions formattedTransactions
         else ret tt
       else ret tt
     else ret tt)
    (fun error => setTransactions (mockTransactions address)).

(** The body of the [for] loop of [fetchTokenBalances]: [balances] is the
    array being filled, returned with or without the new entry. *)
Definition fetchOneToken (address : string) (token : Token)
    (balances : list TokenBalance) : M (list TokenBalance) :=
  tryCatch
    (let callData := balanceOfCallData address in
     let* result :=
       request (eth_call (tk_contractAddress token) callData "latest") in
     let balanceWei := parseInt (rpcToStr result) (Some 16) in
     if quotPositive balanceWei (tk_decimals token) then
       ret (balances ++
              [ {| symbol := tk_symbol token;
                   tb_balance := quotToFixed balanceWei (tk_decimals token) 2;
                   decimals := tk_decimals token;
                   contractAddress := tk_contractAddress token |} ])%list
     else ret balances)
    (fun error => ret balances).

Fixpoint forEachToken (address : string) (catalog : list Token)
    (balances : list TokenBalance) : M (list TokenBalance) :=
  match catalog with
  | [] => ret balances
  | token :: rest =>
      let* balances' := fetchOneToken address token balances in
      forEachToken address rest balances'
  end.

(** [fetchTokenBalances], over a catalog; the component's catalog is
    [tokens]. *)
Definition fetchTokenBalancesOf (catalog : list Token) (address : string) : M unit :=
  tryCatch
    (let* balances := forEachToken address catalog [] in
     setTokenBalances balances)
    (fun error => ret tt).

Definition fetchTokenBalances (address : string) : M unit :=
  fetchTokenBalancesOf tokens address.

Definition connectWallet : M unit :=
  tryCatch
    (let* _ :=
       setWalletState (fun prev =>
         {| isConnected := isConnected prev; address := address prev;
            balance := balance prev; network := network prev;
            chainId := chainId prev; isLoading := true; error := None |}) in
     let* accounts := request eth_requestAccounts in
     (* [accounts.length === 0] is [accounts[0]] being absent; see
        [rpcFirst_None] *)
     match rpcFirst accounts with
     | None => throw (ErrorObj "No accounts found")
     | Some account =>
         let* chainIdHex := request eth_chainId in
         let* balanceWei := request (eth_getBalance account "latest") in
         let balanceEth := parseInt (rpcToStr balanceWei) (Some 16) in
         let networkName := getNetworkName (parseInt (rpcToStr chainIdHex) (Some 16)) in
         let* _ :=
           setWalletState (fun _ =>
             {| isConnected := true;
                address := Some account;
                balance := Some (quotToFixed balanceEth 18 6);
                network := Some networkName;
                chainId := Some (parseInt (rpcToStr chainIdHex) (Some 16));
                isLoading := false;
                error := None |}) in
         let* _ := fetchTokenBalances account in
         let* _ := fetchTransactions account in
         toast ToastSuccess "Wallet connected successfully! 🎉"
     end)
    (fun error =>
       let errorMessage := messageOf error "Failed to connect wallet" in
       let* _ :=
         setWalletState (fun prev =>
           {| isConnected := isConnected prev; address := address prev;
              balance := balance prev; network := network prev;
              chainId := chainId prev; isLoading := false;
              error := Some errorMessage |}) in
       toast ToastError "Failed to connect wallet 😔").

(** Run once when the component mounts ([useEffect] with no dependency);
    it runs in the browser, where [window] is defined. *)
Definition checkWalletConnection : M unit :=
  tryCatch
    (match ethereum with
     | Some _ =>
         let* accounts := request eth_accounts in
         if (0 <? rpcLength accounts)%nat then connectWallet else ret tt
     | None => ret tt
     end)
    (fun error => ret tt).

Definition disconnectWallet : M unit :=
  let* _ :=
    setWalletState (fun _ =>
      {| isConnected := false; address := None; balance := None;
         network := None; chainId := None; isLoading := false;
         error := None |}) in
  let* _ := setTokenBalances [] in
  let* _ := setTransactions [] in
  toast ToastInfo "Wallet disconnected".

(** [!walletState.address]: the address is [null] or the empty string. *)
Definition noAddress (ws : WalletState) : bool :=
  match address ws with
  | None => true
  | Some a => String.eqb a ""
  end.

(** [walletState] is the state of the render whose closure is called: the
    state at the time of the call. *)
Definition refreshWalletData : M unit :=
  let* ws := getWalletState in
  match address ws with
  | None => ret tt
  | Some account =>
      if String.eqb account "" then ret tt
      else
        let* _ := setIsRefreshing true in
        tryCatchFinally
          (let* balanceWei := request (eth_getBalance account "latest") in
           let balanceEth := parseInt (rpcToStr balanceWei) (Some 16) in
           let* _ :=
             setWalletState (fun prev =>
               {| isConnected := isConnected prev; address := address prev;
                  balance := Some (quotToFixed balanceEth 18 6);
                  network := network prev; chainId := chainId prev;
                  isLoading := isLoading prev; error := error prev |}) in
           let* _ := fetchTokenBalances account in
           let* _ := fetchTransactions account in
           toast ToastSuccess "Data refreshed! 🔄")
          (fun error => toast ToastError "Failed to refresh data")
          (setIsRefreshing false)
  end.

End Component.

(** ** A reading of the engine for running examples

    Exact decimal arithmetic in place of doubles: the sign, then [|x| / 10^e]
    rounded to [d] decimals, a tie going up, as [toFixed] rounds.  It is used
    to evaluate the component on concrete inputs only. *)

Definition exactToFixed (x : JsNum) (e d : nat) : string :=
  match x with
  | NaN => "NaN"
  | Int z =>
      let scaled := (2 * Z.abs z * 10 ^ Z.of_nat d + 10 ^ Z.of_nat e)
                    / (2 * 10 ^ Z.of_nat e) in
      let whole := scaled / 10 ^ Z.of_nat d in
      let part := scaled mod 10 ^ Z.of_nat d in
      (if z <? 0 then "-" else "")
        +:+ pretty whole
        +:+ (if (d =? 0)%nat then "" else "." +:+ padStart d "0" (pretty part))
  | Infinite negative =>
      if (e <=? 308)%nat then (if negative then "-Infinity" else "Infinity") else "NaN"
  end.

Definition exactEngine : Engine :=
  {| quotToFixed := exactToFixed;
     intToString := pretty;
     typeErrorMessage := fun expr => "TypeError: " +:+ expr;
     intToString_safe := fun z _ => eq_refl |}.

(** ** Sample surroundings, for evaluating the component *)

Definition sampleAccount : string := "0xdAC17F958D2ee523a2206206994597C13D831ec7".

(** A wallet on Ethereum Mainnet holding 1 ETH, that has authorised one
    account and answers every [balanceOf] call with [tokenReply]. *)
Definition sampleProvider (tokenReply : string -> Reply) : Provider :=
  fun _ r =>
    match r with
    | eth_accounts | eth_requestAccounts => Resolve (RList [sampleAccount])
    | eth_chainId => Resolve (RText "0x1")
    | eth_getBalance _ _ => Resolve (RText "0xDE0B6B3A7640000")
    | eth_call contract _ _ => tokenReply contract
    end.

(** A wallet that has authorised no account. *)
Definition lockedProvider : Provider :=
  fun _ r =>
    match r with
    | eth_accounts | eth_requestAccounts => Resolve (RList [])
    | _ => Reject (ErrorObj "unauthorized")
    end.

Definition browserWith (provider : option Provider) (history : FetchResult) : Browser :=
  {| ethereum := provider;
     fetch := fun _ => history;
     etherscanApiKey := None;
     dateNow := 1700000000000;
     dateNow_time := proj1 (Z.leb_le (Z.abs 1700000000000) 8640000000000000) eq_refl |}.

(** A store in which a connected session is already displayed. *)
Definition connectedStore : Store :=
  {| walletState :=
       {| isConnected := true; address := Some sampleAccount;
          balance := Some "1.000000"; network := Some "Ethereum Mainnet";
          chainId := Some (Int 1); isLoading := false; error := None |};
     tokenBalances :=
       [ {| symbol := "DAI"; tb_balance := "5.00"; decimals := 18;
            contractAddress := "0x6B175474E89094C44Da98b954EedeAC495271d0F" |} ];
     transactions := [];
     isRefreshing := false;
     requests := [];
     fetched := [];
     toasts := [] |}.

(** A wallet whose user declines every request. *)
Definition refusingProvider : Provider :=
  fun _ _ => Reject (ErrorObj "User rejected the request.").

(** A [balanceOf] reply per contract: the USDC contract reverts, the other
    two report [others]. *)
Definition usdcReverts (others : string) (contract : string) : Reply :=
  if String.eqb contract "0xA0b86a33E6417c5c7c4c4c4c4c4c4c4c4c4c4c4c"
  then Reject (ErrorObj "execution reverted")
  else Resolve (RText others).

(** A record of the history service, mined at [time]. *)
Definition sampleRecord (time : Z) (isError : string) : JsVal :=
  JObj [ ("blockNumber", JStr "18500000");
         ("timeStamp", JStr (pretty time));
         ("hash", JStr ("0xabc" +:+ pretty time));
         ("from", JStr sampleAccount);
         ("to", JStr "0x9876543210fedcba9876543210fedcba98765432");
         ("value", JStr "1000000000000000000");
         ("gasPrice", JStr "20000000000");
         ("isError", JStr isError);
         ("gasUsed", JStr "21000") ].

(** Twelve records, most recent first; the third one failed. *)
Definition sampleRecords : list JsVal :=
  [ sampleRecord 1700001200 "0"; sampleRecord 1700001100 "0";
    sampleRecord 1700001000 "1"; sampleRecord 1700000900 "0";
    sampleRecord 1700000800 "0"; sampleRecord 1700000700 "0";
    sampleRecord 1700000600 "0"; sampleRecord 1700000500 "0";
    sampleRecord 1700000400 "0"; sampleRecord 1700000300 "0";
    sampleRecord 1700000200 "0"; sampleRecord 1700000100 "0" ].

Definition samplePayload : JsVal :=
  JObj [ ("status", JStr "1"); ("message", JStr "OK"); ("result", JArr sampleRecords) ].

(** The wallet holds 1 USDT-unit and 1 DAI-unit, the history service
    answers with [samplePayload]. *)
Definition sampleBrowser : Browser :=
  browserWith (Some (sampleProvider (usdcReverts "0x0f4240")))
    (FetchResponse true (BodyJson samplePayload)).

(** The same twelve records, oldest first. *)
Definition ascendingPayload : JsVal :=
  JObj [ ("status", JStr "1"); ("message", JStr "OK");
         ("result", JArr (reverse sampleRecords)) ].

Definition ascendingBrowser : Browser :=
  browserWith (Some (sampleProvider (usdcReverts "0x0f4240")))
    (FetchResponse true (BodyJson ascendingPayload)).

(** The twelve records followed by a [null] entry, which is beyond the
    first ten. *)
Definition trailingNullPayload : JsVal :=
  JObj [ ("status", JStr "1"); ("message", JStr "OK");
         ("result", JArr (sampleRecords ++ [JNull])) ].

Definition trailingNullBrowser : Browser :=
  browserWith (Some (sampleProvider (usdcReverts "0x0f4240")))
    (FetchResponse true (BodyJson trailingNullPayload)).

(** A record whose [value] is an object with a [toString] entry. *)
Definition unreadableRecord : JsVal :=
  JObj [ ("blockNumber", JStr "18500000");
         ("timeStamp", JStr "1700001300");
         ("hash", JStr "0xabc1700001300");
         ("from", JStr sampleAccount);
         ("to", JStr "0x9876543210fedcba9876543210fedcba98765432");
         ("value", JObj [("toString", JNum "1")]);
         ("gasPrice", JStr "20000000000");
         ("isError", JStr "0");
         ("gasUsed", JStr "21000") ].

(** The history service answers with [result], under status "1". *)
Definition historyBrowser (result : JsVal) : Browser :=
  browserWith (Some (sampleProvider (usdcReverts "0x0f4240")))
    (FetchResponse true
       (BodyJson (JObj [ ("status", JStr "1"); ("message", JStr "OK");
                         ("result", result) ]))).

(** A wallet that lists the empty string as its account. *)
Definition emptyAccountProvider : Provider :=
  fun _ r =>
    match r with
    | eth_accounts | eth_requestAccounts => Resolve (RList [""])
    | eth_chainId => Resolve (RText "0x1")
    | _ => Resolve (RText "0x0")
    end.

Definition emptyAccountBrowser : Browser :=
  browserWith (Some emptyAccountProvider) (FetchRejects (ErrorObj "Failed to fetch")).

(** The wallet holds no token, the history service is unreachable. *)
Definition emptyWalletBrowser : Browser :=
  browserWith (Some (sampleProvider (usdcReverts "0x0")))
    (FetchRejects (ErrorObj "Failed to fetch")).


Definition refusedBrowser : Browser :=
  browserWith (Some refusingProvider) (FetchRejects (ErrorObj "Failed to fetch")).

Definition lockedBrowser : Browser :=
  browserWith (Some lockedProvider) (FetchRejects (ErrorObj "Failed to fetch")).

(** A wallet that rejects every request with a plain object, which is no
    instance of [Error]. *)
Definition plainRejectingProvider : Provider :=
  fun _ _ =>
    Reject (NonError (JObj [ ("code", JNum "4001");
                             ("message", JStr "User rejected the request.") ])).

Definition plainRejectBrowser : Browser :=
  browserWith (Some plainRejectingProvider) (FetchRejects (ErrorObj "Failed to fetch")).

(** ** Vocabulary of the properties *)

Definition isNullish (v : JsVal) : bool :=
  match v with
  | JUndefined | JNull => true
  | _ => false
  end.

(** The value of a property of a record of the payload ([undefined] when
    the record has none). *)
Definition field (v : JsVal) (name : string) : JsVal :=
  default JUndefined (getProp v name).

(** [ws], with the loading flag reset and an error message. *)
Definition failedSession (ws : WalletState) (message : string) : WalletState :=
  {| isConnected := isConnected ws; address := address ws;
     balance := balance ws; network := network ws; chainId := chainId ws;
     isLoading := false; error := Some message |}.

(** [st], with more provider requests recorded. *)
Definition logRequests (l : list Request) (st : Store) : Store :=
  {| walletState := walletState st; tokenBalances := tokenBalances st;
     transactions := transactions st; isRefreshing := isRefreshing st;
     requests := (requests st ++ l)%list; fetched := fetched st;
     toasts := toasts st |}.

(** The request that asks [token]'s contract for the balance of [owner]. *)
Definition callOf (owner : string) (token : Token) : Request :=
  eth_call (tk_contractAddress token) (balanceOfCallData owner) "latest".

(** The reply each token of a catalog gets when the calls are made in
    catalog order after the requests of [history]. *)
Fixpoint tokenReplies (provider : Provider) (history : list Request)
    (owner : string) (catalog : list Token) : list Reply :=
  match catalog with
  | [] => []
  | token :: rest =>
      provider history (callOf owner token)
      :: tokenReplies provider (history ++ [callOf owner token])%list owner rest
  end.

Definition isReject (reply : Reply) : bool :=
  match reply with
  | Reject _ => true
  | Resolve _ => false
  end.

(** The reply carries a balance that is displayed as positive. *)
Definition isHeld (token : Token) (reply : Reply) : bool :=
  match reply with
  | Resolve v => quotPositive (parseInt (rpcToStr v) (Some 16)) (tk_decimals token)
  | Reject _ => false
  end.

(** The reply resolved, but to a balance that is not positive. *)
Definition isEmptyBalance (token : Token) (reply : Reply) : bool :=
  negb (isReject reply) && negb (isHeld token reply).

(** The number of tokens of a catalog whose reply satisfies [f]. *)
Definition countPairs (f : Token -> Reply -> bool) (catalog : list Token)
    (replies : list Reply) : nat :=
  length (List.filter (fun tr => f tr.1 tr.2) (zip catalog replies)).

(** Recency: [a] is no later than [b]. *)
Definition noLater (a b : JsNum) : Prop :=
  match a, b with
  | Int x, Int y => x <= y
  | _, _ => False
  end.

(** The time at which the service says a record was mined ([NaN] when the
    record's [timeStamp] cannot be converted to a string). *)
Definition timeOf (tx : JsVal) : JsNum :=
  match toStr (field tx "timeStamp") with
  | Some s => parseInt s None
  | None => NaN
  end.

(** The fields of a record that the normalisation gives to [parseInt]. *)
Definition numericFields : list string :=
  ["value"; "gasPrice"; "blockNumber"; "timeStamp"].

(** A record that can be normalised: it is neither [null] nor [undefined],
    and its numeric fields convert to strings. *)
Definition isRecord (tx : JsVal) : Prop :=
  isNullish tx = false
  /\ Forall (fun name => is_Some (toStr (field tx name))) numericFields.

(** A wallet that never lists the empty string as its first account. *)
Definition listsNoEmptyAccount (provider : option Provider) : Prop :=
  forall p history others,
    provider = Some p ->
    p history eth_requestAccounts <> Resolve (RList ("" :: others)).

(** ** Outcomes of the component's functions

    What each function leaves in the store, case by case on what the
    outside answers; the lemmas of the next part prove that the functions
    compute exactly these. *)

Section Outcomes.
Context `{Engine} `{Browser}.

(** The entry pushed for a token, when its reply carries a positive
    balance. *)
Definition entryOf (token : Token) (reply : Reply) : option TokenBalance :=
  match reply with
  | Resolve v =>
      let balanceWei := parseInt (rpcToStr v) (Some 16) in
      if quotPositive balanceWei (tk_decimals token) then
        Some {| symbol := tk_symbol token;
                tb_balance := quotToFixed balanceWei (tk_decimals token) 2;
                decimals := tk_decimals token;
                contractAddress := tk_contractAddress token |}
      else None
  | Reject _ => None
  end.

Definition entriesOf (catalog : list Token) (replies : list Reply) : list TokenBalance :=
  omap (fun tr => entryOf tr.1 tr.2) (zip catalog replies).

(** The record built from a record of the payload; [None] when building
    it raises: the record is [null] or [undefined], or one of its numeric
    fields does not convert to a string. *)
Definition normalise (tx : JsVal) : option Transaction :=
  if isNullish tx then None
  else
    match toStr (field tx "value"), toStr (field tx "gasPrice"),
          toStr (field tx "blockNumber"), toStr (field tx "timeStamp") with
    | Some valueText, Some gasPriceText, Some blockNumberText, Some timeStampText =>
        Some {| hash := field tx "hash";
                from := field tx "from";
                to := field tx "to";
                value := quotToFixed (parseInt valueText None) 18 6;
                gasUsed := field tx "gasUsed";
                gasPrice := quotToFixed (parseInt gasPriceText None) 9 2;
                blockNumber := parseInt blockNumberText None;
                timestamp := parseInt timeStampText None;
                status := if strictEqStr (field tx "isError") "0"
                          then success else failed |}
    | _, _, _, _ => None
    end.

(** The records built from a list of records, when all can be built. *)
Fixpoint normaliseAll (items : list JsVal) : option (list Transaction) :=
  match items with
  | [] => Some []
  | tx :: rest =>
      match normalise tx, normaliseAll rest with
      | Some r, Some rs => Some (r :: rs)
      | _, _ => None
      end
  end.

(** What one run of [fetchTransactions] does to the transaction list. *)
Inductive HistoryOutcome : Type :=
| Placeholder
| Unchanged
| Replaced (txs : list Transaction).

Definition payloadOutcome (data : JsVal) : HistoryOutcome :=
  match getProp data "status" with
  | None => Placeholder
  | Some data_status =>
      if strictEqStr data_status "1" then
        if truthy (field data "result") then
          match field data "result" with
          | JArr items =>
              match normaliseAll (take 10 items) with
              | Some txs => Replaced txs
              | None => Placeholder
              end
          | _ => Placeholder
          end
        else Unchanged
      else Unchanged
  end.

Definition historyOutcome (r : FetchResult) : HistoryOutcome :=
  match r with
  | FetchRejects _ => Placeholder
  | FetchResponse false _ => Unchanged
  | FetchResponse true (BodyInvalid _) => Placeholder
  | FetchResponse true (BodyJson data) => payloadOutcome data
  end.

Definition applyOutcome (owner : string) (o : HistoryOutcome) (st : Store) : Store :=
  match o with
  | Placeholder => (setTransactions (mockTransactions owner) st).2
  | Unchanged => st
  | Replaced txs => (setTransactions txs st).2
  end.

(** The session written by a successful [connectWallet]. *)
Definition connectedSession (account : string) (chainIdHex balanceWei : RpcValue) :
    WalletState :=
  {| isConnected := true;
     address := Some account;
     balance := Some (quotToFixed (parseInt (rpcToStr balanceWei) (Some 16)) 18 6);
     network := Some (getNetworkName (parseInt (rpcToStr chainIdHex) (Some 16)));
     chainId := Some (parseInt (rpcToStr chainIdHex) (Some 16));
     isLoading := false;
     error := None |}.

(** The store left by a failed [connectWallet] that threw [e] after making
    the requests [calls]. *)
Definition afterFailure (e : Thrown) (calls : list Request) (st : Store) : Store :=
  {| walletState :=
       failedSession (walletState st) (messageOf e "Failed to connect wallet");
     tokenBalances := tokenBalances st;
     transactions := transactions st;
     isRefreshing := isRefreshing st;
     requests := requests st ++ calls;
     fetched := fetched st;
     toasts := toasts st ++ [(ToastError, "Failed to connect wallet 😔")] |}.

(** The store left by a successful [connectWallet]. *)
Definition afterSuccess (account : string) (chainIdHex balanceWei : RpcValue)
    (st : Store) : Store :=
  let settled :=
    {| walletState := connectedSession account chainIdHex balanceWei;
       tokenBalances := tokenBalances st;
       transactions := transactions st;
       isRefreshing := isRefreshing st;
       requests := requests st ++ [eth_requestAccounts; eth_chainId;
                                   eth_getBalance account "latest"];
       fetched := fetched st;
       toasts := toasts st |} in
  (toast ToastSuccess "Wallet connected successfully! 🎉"
     (fetchTransactions account (fetchTokenBalances account settled).2).2).2.

(** A mandatory step of [connectWallet] fails from store [st]: the step
    throws [e], the requests [calls] having been made. *)
Inductive MandatoryFailure (st : Store) : Thrown -> list Request -> Prop :=
| ProviderMissing :
    ethereum = None ->
    MandatoryFailure st (ErrorObj (typeErrorMessage "window.ethereum.request")) []
| AccountsRejected (p : Provider) (e : Thrown) :
    ethereum = Some p ->
    p (requests st) eth_requestAccounts = Reject e ->
    MandatoryFailure st e [eth_requestAccounts]
| AccountsEmpty (p : Provider) (accounts : RpcValue) :
    ethereum = Some p ->
    p (requests st) eth_requestAccounts = Resolve accounts ->
    rpcLength accounts = 0%nat ->
    MandatoryFailure st (ErrorObj "No accounts found") [eth_requestAccounts]
| ChainIdRejected (p : Provider) (accounts : RpcValue) (e : Thrown) :
    ethereum = Some p ->
    p (requests st) eth_requestAccounts = Resolve accounts ->
    rpcLength accounts <> 0%nat ->
    p (requests st ++ [eth_requestAccounts]) eth_chainId = Reject e ->
    MandatoryFailure st e [eth_requestAccounts; eth_chainId]
| BalanceRejected (p : Provider) (accounts chainIdHex : RpcValue)
    (account : string) (e : Thrown) :
    ethereum = Some p ->
    p (requests st) eth_requestAccounts = Resolve accounts ->
    rpcFirst accounts = Some account ->
    p (requests st ++ [eth_requestAccounts]) eth_chainId = Resolve chainIdHex ->
    p (requests st ++ [eth_requestAccounts; eth_chainId])
      (eth_getBalance account "latest") = Reject e ->
    MandatoryFailure st e
      [eth_requestAccounts; eth_chainId; eth_getBalance account "latest"].

(** All the ways [connectWallet] can go. *)
Definition connectOutcome (st : Store) : Store :=
  match ethereum with
  | None =>
      afterFailure (ErrorObj (typeErrorMessage "window.ethereum.request")) [] st
  | Some p =>
      match p (requests st) eth_requestAccounts with
      | Reject e => afterFailure e [eth_requestAccounts] st
      | Resolve accounts =>
          match rpcFirst accounts with
          | None =>
              afterFailure (ErrorObj "No accounts found") [eth_requestAccounts] st
          | Some account =>
              match p (requests st ++ [eth_requestAccounts]) eth_chainId with
              | Reject e => afterFailure e [eth_requestAccounts; eth_chainId] st
              | Resolve chainIdHex =>
                  match p (requests st ++ [eth_requestAccounts; eth_chainId])
                          (eth_getBalance account "latest") with
                  | Reject e =>
                      afterFailure e
                        [eth_requestAccounts; eth_chainId;
                         eth_getBalance account "latest"] st
                  | Resolve balanceWei =>
                      afterSuccess account chainIdHex balanceWei st
                  end
              end
          end
      end
  end.

Definition probeOutcome (st : Store) : Store :=
  match ethereum with
  | None => st
  | Some p =>
      match p (requests st) eth_accounts with
      | Reject _ => logRequests [eth_accounts] st
      | Resolve accounts =>
          if (0 <? rpcLength accounts)%nat
          then connectOutcome (logRequests [eth_accounts] st)
          else logRequests [eth_accounts] st
      end
  end.

(** The balance written by a refresh. *)
Definition withBalance (balanceWei : RpcValue) (prev : WalletState) : WalletState :=
  {| isConnected := isConnected prev; address := address prev;
     balance := Some (quotToFixed (parseInt (rpcToStr balanceWei) (Some 16)) 18 6);
     network := network prev; chainId := chainId prev;
     isLoading := isLoading prev; error := error prev |}.

(** All the ways a refresh for [account] can go. *)
Definition refreshOutcome (account : string) (st : Store) : Store :=
  let started := (setIsRefreshing true st).2 in
  let finished :=
    match ethereum with
    | None => (toast ToastError "Failed to refresh data" started).2
    | Some p =>
        match p (requests st) (eth_getBalance account "latest") with
        | Reject e =>
            (toast ToastError "Failed to refresh data"
               (logRequests [eth_getBalance account "latest"] started)).2
        | Resolve balanceWei =>
            (toast ToastSuccess "Data refreshed! 🔄"
               (fetchTransactions account
                  (fetchTokenBalances account
                     (setWalletState (withBalance balanceWei)
                        (logRequests [eth_getBalance account "latest"] started)).2).2).2).2
        end
    end in
  (setIsRefreshing false finished).2.

End Outcomes.

(** ** The rest of the page: actions, labels and explorer links *)

(** What the user, or the mounting of the component, can start. *)
Inductive Action : Type := Probe | Connect | Disconnect | Refresh.

Section Actions.
Context `{Engine} `{Browser}.

Definition perform (a : Action) : M unit :=
  match a with
  | Probe => checkWalletConnection
  | Connect => connectWallet
  | Disconnect => disconnectWallet
  | Refresh => refreshWalletData
  end.

End Actions.

Section Series.
Context `{Engine}.

(** The store after a series of actions, each run to its end before the
    next one starts, and each in the surroundings of its time: the wallet,
    the history service, the API key and the clock may differ from one
    action to the next. *)
Fixpoint performSeries (steps : list (Browser * Action)) (st : Store) : Store :=
  match steps with
  | [] => st
  | (surroundings, a) :: rest => performSeries rest (@perform _ surroundings a st).2
  end.

End Series.

(** [s.slice(0, n)].  A string is taken as the sequence of its code units,
    which for the texts handled here (addresses, hashes, hex quantities) are
    its characters. *)
Fixpoint takeChars (n : nat) (s : string) : string :=
  match n, s with
  | O, _ => EmptyString
  | S _, EmptyString => EmptyString
  | S n', String c rest => String c (takeChars n' rest)
  end.

(** [s.slice(-n)], for [n > 0]: the last [n] characters, or all of [s] when
    it is shorter. *)
Definition lastChars (n : nat) (s : string) : string :=
  dropChars (String.length s - n) s.

(** [formatAddress].  It is declared on strings, and called on the [from]
    and [to] of a transaction, which hold whatever the payload had: an array
    has [slice] too, and prints through [ToString]; on any other value the
    call of [slice] raises a [TypeError] ([None]). *)
Definition formatAddress (address : JsVal) : option string :=
  match address with
  | JStr s => Some (takeChars 6 s +:+ "..." +:+ lastChars 4 s)
  | JArr items =>
      match toStr (JArr (take 6 items)),
            toStr (JArr (drop (length items - 4) items)) with
      | Some first, Some last => Some (first +:+ "..." +:+ last)
      | _, _ => None
      end
  | _ => None
  end.

(** The two address cells of a row of the history list:
    [formatAddress(tx.from)] and
    [tx.to ? formatAddress(tx.to) : 'Contract Creation']. *)
Definition senderLabel (tx : Transaction) : option string := formatAddress (from tx).

Definition recipientLabel (tx : Transaction) : option string :=
  if truthy (to tx) then formatAddress (to tx) else Some "Contract Creation".

(** [!walletState.chainId]: [null], [NaN] or zero. *)
Definition noChainId (ws : WalletState) : bool :=
  match chainId ws with
  | None | Some NaN => true
  | Some (Int z) => z =? 0
  | Some (Infinite _) => false
  end.

(** [openInExplorer]: the URL given to [window.open], or [None] when the
    function returns without opening anything. *)
Definition openInExplorer (ws : WalletState) : option string :=
  if noAddress ws || noChainId ws then None
  else
    match address ws, chainId ws with
    | Some account, Some (Int z) =>
        Some (if z =? 1 then "https://etherscan.io/address/" +:+ account
              else if z =? 137 then "https://polygonscan.com/address/" +:+ account
              else if z =? 56 then "https://bscscan.com/address/" +:+ account
              else "https://etherscan.io/address/" +:+ account)
    | Some account, Some _ => Some ("https://etherscan.io/address/" +:+ account)
    | _, _ => None
    end.

(** [openTransactionInExplorer]: the URL given to [window.open].  The
    parameter is declared a string and is given the [hash] of a transaction,
    which holds whatever the payload had; it goes through the template
    literal's [ToString], and nothing is opened ([None]) when that raises. *)
Definition openTransactionInExplorer (ws : WalletState) (txHash : JsVal) :
    option string :=
  match toStr txHash with
  | Some text =>
      Some match chainId ws with
           | Some (Int 1) => "https://etherscan.io/tx/" +:+ text
           | Some (Int 137) => "https://polygonscan.com/tx/" +:+ text
           | _ => "https://etherscan.io/tx/" +:+ text
           end
  | None => None
  end.

(** Hexadecimal digits, for writing the quantities a provider returns. *)
Definition hexChar (d : Z) : ascii :=
  ascii_of_N (Z.to_N (if d <? 10 then 48 + d else 87 + d)).

Fixpoint hexString (ds : list Z) : string :=
  match ds with
  | [] => EmptyString
  | d :: rest => String (hexChar d) (hexString rest)
  end.

(** The number written by the digits [ds], most significant first. *)
Definition digitsValue (ds : list Z) : Z := foldl (fun acc d => 16 * acc + d) 0 ds.

(** The session is all there or not there at all: connected with address,
    balance, network and chain identifier all set (not [null]), or
    disconnected with all four [null]. *)
Definition sessionShape (ws : WalletState) : Prop :=
  if isConnected ws
  then is_Some (address ws) /\ is_Some (balance ws)
       /\ is_Some (network ws) /\ is_Some (chainId ws)
  else address ws = None /\ balance ws = None
       /\ network ws = None /\ chainId ws = None.

(** A store between two actions: a session of that shape, nothing in
    progress, and no token or transaction shown while disconnected. *)
Definition settled (st : Store) : Prop :=
  sessionShape (walletState st)
  /\ isLoading (walletState st) = false
  /\ isRefreshing st = false
  /\ (isConnected (walletState st) = false ->
      tokenBalances st = [] /\ transactions st = []).

(** A connected session shows an address: one that is not the empty
    string, which [!walletState.address] takes for no address. *)
Definition addressShown (st : Store) : Prop :=
  isConnected (walletState st) = true -> noAddress (walletState st) = false.

(** ** The API route ([route.ts])

    The handlers answer with mock data drawn from [Math.random()].  The
    double arithmetic on the draws is a parameter, as in [Engine]; the
    handlers are written over it operation by operation. *)

(** [ethers.isAddress], which accepts any value and never raises. *)
Class Ethers : Type := { isAddress : JsVal -> bool }.

Class Doubles : Type := {
  Double : Type;
  (** a numeric literal *)
  lit : Z -> Double;
  add : Double -> Double -> Double;
  mul : Double -> Double -> Double;
  div : Double -> Double -> Double;
  (** [Math.floor], [Math.pow], [parseFloat], [x.toFixed(d)],
      [x.toString()] *)
  floor : Double -> Double;
  pow : Double -> Double -> Double;
  parseFloat : string -> Double;
  toFixed : Double -> nat -> string;
  toText : Double -> string;
  (** the results of [Math.random()], in the order of the calls made while
      one request is handled *)
  random : nat -> Double
}.

Section Route.
Context `{Engine} `{Ethers} `{Doubles}.

Record BlockchainInfo : Type := {
  bi_gasPrice : string;
  bi_blockNumber : Double;
  bi_network : string;
  bi_chainId : Double;
  bi_ethPrice : Double
}.

(** The [TokenBalance] of the route, which is not the page's. *)
Record ApiToken : Type := {
  at_symbol : string;
  at_balance : string;
  at_usdValue : Double;
  at_contractAddress : string
}.

Record BalanceResponse : Type := {
  br_address : string;
  br_balance : string;
  br_usdValue : Double;
  br_tokens : list ApiToken
}.

Record Estimate : Type := {
  es_success : bool;
  es_gasEstimate : string;
  es_gasPrice : string;
  es_totalCost : string;
  es_message : string
}.

(** The object given to [NextResponse.json]; an error object has an
    [error] and, in the [catch] blocks, a [message]. *)
Inductive ApiBody : Type :=
| InfoBody (info : BlockchainInfo)
| BalanceBody (response : BalanceResponse)
| EstimateBody (estimate : Estimate)
| ErrorBody (error : string) (message : option string).

Record ApiResponse : Type := {
  httpStatus : Z;
  payload : ApiBody
}.

(** [NextResponse.json(body)] answers with status 200. *)
Definition respond (body : ApiBody) : ApiResponse :=
  {| httpStatus := 200; payload := body |}.

Definition respondWith (body : ApiBody) (code : Z) : ApiResponse :=
  {| httpStatus := code; payload := body |}.

(** [new URL(request.url)]: raises on a text that is no URL, and otherwise
    gives [searchParams.get]. *)
Inductive UrlParse : Type :=
| UrlInvalid (e : Thrown)
| UrlParams (get : string -> option string).

(** [a === s], for [a] a string or [null]. *)
Definition isText (a : option string) (s : string) : bool :=
  match a with
  | Some a' => String.eqb a' s
  | None => false
  end.

(** The address when [action === 'balance' && address] holds: the action
    is "balance" and the address is neither [null] nor empty. *)
Definition balanceRequestFor (action address : option string) : option string :=
  if isText action "balance" then
    match address with
    | Some a => if String.eqb a "" then None else Some a
    | None => None
    end
  else None.

Definition GET (request : UrlParse) : ApiResponse :=
  match request with
  | UrlInvalid error =>
      respondWith
        (ErrorBody "Internal server error" (Some (messageOf error "Unknown error")))
        500
  | UrlParams get =>
      let address := get "address" in
      let action := get "action" in
      let mockBlockchainInfo :=
        {| bi_gasPrice := toFixed (add (lit 15) (mul (random 0) (lit 10))) 2;
           bi_blockNumber := add (lit 12345678) (floor (mul (random 1) (lit 1000)));
           bi_network := "Ethereum Mainnet";
           bi_chainId := lit 1;
           bi_ethPrice := add (lit 2000) (mul (random 2) (lit 500)) |} in
      if isText action "info" then respond (InfoBody mockBlockchainInfo)
      else
        match balanceRequestFor action address with
        | Some account =>
            if negb (isAddress (JStr account)) then
              respondWith (ErrorBody "Invalid Ethereum address" None) 400
            else
              let mockBalance := toFixed (mul (random 3) (lit 10)) 6 in
              let tokens :=
                [ {| at_symbol := "USDC";
                     at_balance := toFixed (mul (random 4) (lit 5000)) 2;
                     at_usdValue := parseFloat (toFixed (mul (random 5) (lit 5000)) 2);
                     at_contractAddress := "0xA0b86a33E6417c5c7c4c4c4c4c4c4c4c4c4c4c4c" |};
                  {| at_symbol := "USDT";
                     at_balance := toFixed (mul (random 6) (lit 3000)) 2;
                     at_usdValue := parseFloat (toFixed (mul (random 7) (lit 3000)) 2);
                     at_contractAddress := "0xdAC17F958D2ee523a2206206994597C13D831ec7" |};
                  {| at_symbol := "DAI";
                     at_balance := toFixed (mul (random 8) (lit 2000)) 2;
                     at_usdValue := parseFloat (toFixed (mul (random 9) (lit 2000)) 2);
                     at_contractAddress := "0x6B175474E89094C44Da98b954EedeAC495271d0F" |} ] in
              respond
                (BalanceBody
                   {| br_address := account;
                      br_balance := mockBalance;
                      br_usdValue :=
                        mul (parseFloat mockBalance) (bi_ethPrice mockBlockchainInfo);
                      br_tokens := tokens |})
        | None =>
            respondWith
              (ErrorBody
                 "Invalid action. Use ?action=info or ?action=balance&address=0x..."
                 None)
              400
        end
  end.

(** The [catch] block of [POST]. *)
Definition transactionFailed (error : Thrown) : ApiResponse :=
  respondWith (ErrorBody "Transaction failed" (Some (messageOf error "Unknown error")))
    500.

(** The estimate that [POST] answers with: it is computed from two draws,
    and from nothing of the request. *)
Definition mockEstimate : ApiResponse :=
  let mockGasEstimate := add (lit 21000) (floor (mul (random 0) (lit 50000))) in
  let mockGasPrice := toFixed (add (lit 15) (mul (random 1) (lit 10))) 2 in
  let mockTotalCost :=
    toFixed (div (mul mockGasEstimate (parseFloat mockGasPrice))
               (pow (lit 10) (lit 9))) 6 in
  respond
    (EstimateBody
       {| es_success := true;
          es_gasEstimate := toText mockGasEstimate;
          es_gasPrice := mockGasPrice;
          es_totalCost := mockTotalCost;
          es_message := "Transaction ready to be signed by user (Mock Data)" |}).

(** [request] is what [await request.json()] gives.  Destructuring
    [{ to, value, data }] reads the three properties, and raises on [null];
    [data] is not used afterwards. *)
Definition POST (request : Body) : ApiResponse :=
  match request with
  | BodyInvalid error => transactionFailed error
  | BodyJson body =>
      match getProp body "to", getProp body "value", getProp body "data" with
      | Some to, Some value, Some data =>
          if negb (truthy to) || negb (truthy value) then
            respondWith (ErrorBody "Missing required fields: to, value" None) 400
          else if negb (isAddress to) then
            respondWith (ErrorBody "Invalid recipient address" None) 400
          else mockEstimate
      | _, _, _ => transactionFailed (ErrorObj (typeErrorMessage "{ to, value, data }"))
      end
  end.

End Route.

(** Readings of [ethers.isAddress] and of the doubles for running the
    handlers on examples: an address is taken to be "0x" followed by 40
    characters, and no number is computed. *)
Definition sampleEthers : Ethers :=
  {| isAddress := fun v =>
       match v with
       | JStr (String "0" (String "x" digits)) => (String.length digits =? 40)%nat
       | _ => false
       end |}.

Definition noDoubles : Doubles :=
  {| Double := unit;
     lit := fun _ => tt;
     add := fun _ _ => tt;
     mul := fun _ _ => tt;
     div := fun _ _ => tt;
     floor := fun _ => tt;
     pow := fun _ _ => tt;
     parseFloat := fun _ => tt;
     toFixed := fun _ _ => "";
     toText := fun _ => "";
     random := fun _ => tt |}.

(** The query [?action=balance&address=...] for the sample account. *)
Definition sampleQuery : string -> option string :=
  fun name =>
    if String.eqb name "action" then Some "balance"
    else if String.eqb name "address" then Some sampleAccount
    else None.

(** * Properties *)

(** ** Strings and [parseInt] *)

Example parseInt_hex : parseInt "0xDE0B6B3A7640000" (Some 16) = Int 1000000000000000000.
Proof. reflexivity. Qed.

Example parseInt_dec : parseInt "1700000000" None = Int 1700000000.
Proof. reflexivity. Qed.

Example parseInt_empty : parseInt "0x" (Some 16) = NaN.
Proof. reflexivity. Qed.

Example parseInt_false :
  (fun s => parseInt s (Some 16)) <$> toStr (JBool false) = Some (Int 250).
Proof. reflexivity. Qed.

Example parseInt_no_break_space : parseInt (String (ascii_of_N 160) "12") None = Int 12.
Proof. reflexivity. Qed.

(** Above 2^53 the digits are rounded to the nearest double, a tie to the
    even one, and beyond the doubles to infinity. *)
Example parseInt_rounds_tie : parseInt "0x20000000000001" (Some 16) = Int 9007199254740992.
Proof. reflexivity. Qed.

Example parseInt_rounds_up : parseInt "9007199254740995" None = Int 9007199254740996.
Proof. reflexivity. Qed.

Example numberOf_largest :
  numberOf (2 ^ 1024 - 2 ^ 970 - 1) = Int (2 ^ 1024 - 2 ^ 971)
  /\ numberOf (2 ^ 1024 - 2 ^ 970) = Infinite false
  /\ numberOf (- 2 ^ 1024) = Infinite true.
Proof. repeat split; vm_compute; reflexivity. Qed.

(** An object of the payload with a [toString] entry does not convert. *)
Example toStr_own_toString :
  toStr (JObj [("toString", JNum "1")]) = None
  /\ toStr (JArr [JStr "a"; JObj [("toString", JNull)]]) = None
  /\ toStr (JArr [JStr "a"; JNull; JObj [("valueOf", JNum "1")]])
     = Some "a,,[object Object]".
Proof. repeat split. Qed.

Lemma numberOf_exact (z : Z) : Z.abs z <= 2 ^ 53 -> numberOf z = Int z.
Proof.
  intros Hsafe.
  assert (Hround : roundToDouble (Z.abs z) = Some (Z.abs z)).
  { destruct (Z.eq_dec (Z.abs z) (2 ^ 53)) as [->|Hne]; [reflexivity|].
    unfold roundToDouble.
    assert (Hlog : Z.log2 (Z.abs z) - 52 <= 0).
    { destruct (Z.eq_dec (Z.abs z) 0) as [->|Hpos]; [discriminate|].
      assert (Z.log2 (Z.abs z) < 53) by (apply Z.log2_lt_pow2; lia).
      lia. }
    destruct (Z.leb_spec (Z.log2 (Z.abs z) - 52) 0) as [_|Hgt]; [reflexivity | lia]. }
  unfold numberOf. rewrite Hround.
  destruct (Z.ltb_spec z 0); f_equal; lia.
Qed.

Example one_ether_displayed :
  exactToFixed (parseInt "0xDE0B6B3A7640000" (Some 16)) 18 6 = "1.000000".
Proof. reflexivity. Qed.

Lemma length_append (a b : string) :
  String.length (a +:+ b) = (String.length a + String.length b)%nat.
Proof. induction a as [|c a IH]; simpl; [reflexivity | by rewrite IH]. Qed.

Lemma length_repeatChar (c : ascii) (n : nat) : String.length (repeatChar c n) = n.
Proof. induction n as [|n IH]; simpl; [reflexivity | by rewrite IH]. Qed.

Lemma length_padStart (n : nat) (c : ascii) (s : string) :
  String.length (padStart n c s) = Nat.max n (String.length s).
Proof. unfold padStart. rewrite length_append, length_repeatChar. lia. Qed.

Lemma padStart_long (n : nat) (c : ascii) (s : string) :
  (n <= String.length s)%nat -> padStart n c s = s.
Proof.
  intros Hlen. unfold padStart.
  replace (n - String.length s)%nat with 0%nat by lia. reflexivity.
Qed.

Lemma rpcFirst_None (v : RpcValue) : rpcFirst v = None <-> rpcLength v = 0%nat.
Proof.
  destruct v as [[|c s]|[|a l]]; simpl; split; intros Heq;
    first [reflexivity | discriminate].
Qed.

Lemma strictEqStr_true (v : JsVal) (s : string) :
  strictEqStr v s = true <-> v = JStr s.
Proof.
  destruct v; simpl; try (split; [discriminate | congruence]).
  rewrite String.eqb_eq. split; congruence.
Qed.

(** ** The network registry *)

Section Registry.
Context `{Engine}.

Lemma networkTable_NoDup : NoDup (networkTable.*1).
Proof. apply NoDup_ListNoDup. vm_compute. repeat constructor; simpl; intuition congruence. Qed.

Lemma networks_lookup (id : Z) (name : string) :
  networks !! id = Some name <-> (id, name) ∈ networkTable.
Proof. symmetry. apply elem_of_list_to_map, networkTable_NoDup. Qed.

Lemma networkTable_named (id : Z) (name : string) :
  (id, name) ∈ networkTable -> name <> "".
Proof.
  unfold networkTable. rewrite !elem_of_cons, elem_of_nil.
  intros Hin Hname. subst name. intuition discriminate.
Qed.

Lemma getNetworkName_known (id : Z) (name : string) :
  (id, name) ∈ networkTable -> getNetworkName (Int id) = name.
Proof.
  intros Hin. unfold getNetworkName, networksAt.
  rewrite (proj2 (networks_lookup id name) Hin). simpl.
  destruct (String.eqb_spec name "") as [Hempty|_]; [|reflexivity].
  by apply networkTable_named in Hin.
Qed.

Lemma getNetworkName_unknown (id : Z) :
  id ∉ networkTable.*1 ->
  getNetworkName (Int id) = "Unknown Network (Chain ID: " +:+ intToString id +:+ ")".
Proof.
  intros Hout. unfold getNetworkName, networksAt, networks.
  by rewrite (not_elem_of_list_to_map_1 networkTable id Hout).
Qed.

(** C8. The resolver returns the registered display name of every chain
    identifier of the table, and for every other identifier the fallback
    string that embeds the identifier as the template literal prints it, in
    decimal for every integer a double holds exactly; in particular chain 1
    is "Ethereum Mainnet" and chain 999999 is
    "Unknown Network (Chain ID: 999999)". *)
Theorem getNetworkName_resolves :
  (forall (id : Z) (name : string),
      (id, name) ∈ networkTable -> getNetworkName (Int id) = name)
  /\ (forall id : Z,
        id ∉ networkTable.*1 ->
        getNetworkName (Int id)
        = "Unknown Network (Chain ID: " +:+ numToString (Int id) +:+ ")")
  /\ (forall id : Z, Z.abs id <= 2 ^ 53 -> numToString (Int id) = pretty id)
  /\ getNetworkName (Int 1) = "Ethereum Mainnet"
  /\ getNetworkName (Int 999999) = "Unknown Network (Chain ID: 999999)".
Proof.
  split; [exact getNetworkName_known|].
  split; [exact getNetworkName_unknown|].
  split; [intros id Hsafe; simpl; by apply intToString_safe|].
  split.
  - apply getNetworkName_known. unfold networkTable. set_solver.
  - rewrite getNetworkName_unknown.
    + rewrite intToString_safe by (vm_compute; discriminate). reflexivity.
    + unfold networkTable. simpl. rewrite !not_elem_of_cons. 
      repeat split; try discriminate. apply not_elem_of_nil.
Qed.

End Registry.

(** ** Effects of the component's functions *)

Section Behaviour.
Context `{Engine} `{Browser}.

Lemma logRequests_nil (st : Store) : logRequests [] st = st.
Proof. destruct st. unfold logRequests. simpl. by rewrite app_nil_r. Qed.

Lemma logRequests_app (l1 l2 : list Request) (st : Store) :
  logRequests l2 (logRequests l1 st) = logRequests (l1 ++ l2) st.
Proof. unfold logRequests. simpl. by rewrite app_assoc. Qed.

Lemma request_provider (p : Provider) (r : Request) (st : Store) :
  ethereum = Some p ->
  request r st
  = (match p (requests st) r with
     | Resolve v => Ok v
     | Reject e => Throw e
     end, logRequests [r] st).
Proof.
  intros Hp. unfold request. rewrite Hp.
  by destruct (p (requests st) r).
Qed.

Lemma request_missing (r : Request) (st : Store) :
  ethereum = None ->
  request r st = (Throw (ErrorObj (typeErrorMessage "window.ethereum.request")), st).
Proof. intros Hp. unfold request. by rewrite Hp. Qed.

(** *** Token balances *)

Lemma fetchOneToken_provider (p : Provider) (owner : string) (token : Token)
    (balances : list TokenBalance) (st : Store) :
  ethereum = Some p ->
  fetchOneToken owner token balances st
  = (Ok (balances ++ option_list (entryOf token (p (requests st) (callOf owner token)))),
     logRequests [callOf owner token] st).
Proof.
  intros Hp. unfold fetchOneToken, tryCatch, bind.
  rewrite (request_provider p _ st Hp). fold (callOf owner token).
  destruct (p (requests st) (callOf owner token)) as [v|e]; simpl.
  - destruct (quotPositive _ _); simpl; [reflexivity | by rewrite app_nil_r].
  - by rewrite app_nil_r.
Qed.

Lemma forEachToken_provider (p : Provider) (owner : string) (catalog : list Token) :
  ethereum = Some p ->
  forall (balances : list TokenBalance) (st : Store),
    forEachToken owner catalog balances st
    = (Ok (balances ++ entriesOf catalog (tokenReplies p (requests st) owner catalog)),
       logRequests (callOf owner <$> catalog) st).
Proof.
  intros Hp. induction catalog as [|token rest IH]; intros balances st.
  - simpl. unfold ret, entriesOf. simpl. by rewrite app_nil_r, logRequests_nil.
  - cbn [forEachToken]. unfold bind. rewrite (fetchOneToken_provider p _ _ _ _ Hp).
    rewrite IH, logRequests_app. simpl. f_equal. f_equal.
    unfold entriesOf. simpl. rewrite <- app_assoc. f_equal.
    by destruct (entryOf token _).
Qed.

Lemma forEachToken_missing (owner : string) (catalog : list Token) :
  ethereum = None ->
  forall (balances : list TokenBalance) (st : Store),
    forEachToken owner catalog balances st = (Ok balances, st).
Proof.
  intros Hp. induction catalog as [|token rest IH]; intros balances st.
  - reflexivity.
  - cbn [forEachToken]. unfold bind at 1. unfold fetchOneToken, tryCatch, bind.
    rewrite (request_missing _ st Hp). apply IH.
Qed.

Lemma fetchTokenBalancesOf_provider (p : Provider) (catalog : list Token)
    (owner : string) (st : Store) :
  ethereum = Some p ->
  fetchTokenBalancesOf catalog owner st
  = (Ok tt,
     (setTokenBalances (entriesOf catalog (tokenReplies p (requests st) owner catalog))
        (logRequests (callOf owner <$> catalog) st)).2).
Proof.
  intros Hp. unfold fetchTokenBalancesOf, tryCatch, bind.
  by rewrite (forEachToken_provider p owner catalog Hp).
Qed.

Lemma fetchTokenBalancesOf_missing (catalog : list Token) (owner : string) (st : Store) :
  ethereum = None ->
  fetchTokenBalancesOf catalog owner st = (Ok tt, (setTokenBalances [] st).2).
Proof.
  intros Hp. unfold fetchTokenBalancesOf, tryCatch, bind.
  by rewrite (forEachToken_missing owner catalog Hp).
Qed.

(** Whatever the wallet does, fetching token balances completes, and apart
    from the token list it only adds provider requests. *)
Lemma fetchTokenBalancesOf_frame (catalog : list Token) (owner : string) (st : Store) :
  exists (balances : list TokenBalance) (calls : list Request),
    fetchTokenBalancesOf catalog owner st
    = (Ok tt, (setTokenBalances balances (logRequests calls st)).2).
Proof.
  destruct ethereum as [p|] eqn:Hp.
  - eexists _, _. by apply fetchTokenBalancesOf_provider.
  - exists [], []. rewrite logRequests_nil. by apply fetchTokenBalancesOf_missing.
Qed.

(** *** Transaction history *)

Lemma getProp_field (tx : JsVal) (name : string) :
  isNullish tx = false -> getProp tx name = Some (field tx name).
Proof. destruct tx; simpl; intros Hnn; first [discriminate | reflexivity]. Qed.

(** [formatTransaction] builds [normalise tx], and raises exactly when
    there is no such record; it never changes the store. *)
Lemma formatTransaction_run (tx : JsVal) (st : Store) :
  exists r,
    formatTransaction tx st = (r, st)
    /\ match normalise tx with
       | Some t => r = Ok t
       | None => exists e, r = Throw e
       end.
Proof.
  unfold formatTransaction, normalise, prop, parseIntOf.
  destruct (isNullish tx) eqn:Hnull.
  { destruct tx; try discriminate; cbn; eauto. }
  rewrite !(getProp_field tx _ Hnull). unfold bind, ret, throw.
  destruct (toStr (field tx "value")); [|eauto].
  destruct (toStr (field tx "gasPrice")); [|eauto].
  destruct (toStr (field tx "blockNumber")); [|eauto].
  destruct (toStr (field tx "timeStamp")); eauto.
Qed.

Lemma mapM_formatTransaction (items : list JsVal) (st : Store) :
  exists r,
    mapM formatTransaction items st = (r, st)
    /\ match normaliseAll items with
       | Some ts => r = Ok ts
       | None => exists e, r = Throw e
       end.
Proof.
  induction items as [|tx items IH]; [by eexists|].
  cbn [mapM normaliseAll]. unfold bind at 1.
  destruct (formatTransaction_run tx st) as (r & Hrun & Hr). rewrite Hrun.
  destruct (normalise tx) as [t|].
  - subst r. unfold bind at 1.
    destruct IH as (rs & Hrest & Hrs). rewrite Hrest.
    destruct (normaliseAll items) as [ts|].
    + subst rs. by eexists.
    + destruct Hrs as [e ->]. eauto.
  - destruct Hr as [e ->]. eauto.
Qed.

Lemma fetchTransactions_run (owner : string) (st : Store) :
  fetchTransactions owner st
  = (Ok tt,
     applyOutcome owner (historyOutcome (fetch (historyUrl owner)))
       (logFetch (historyUrl owner) st)).
Proof.
  unfold fetchTransactions, tryCatch. unfold bind at 1. unfold fetchUrl.
  destruct (fetch (historyUrl owner)) as [e|ok [e|data]];
    [reflexivity | destruct ok; reflexivity |].
  destruct ok; [|reflexivity]. cbn [historyOutcome].
  destruct data as [| |b|text|s|items|props]; try reflexivity.
  unfold payloadOutcome, field, json, prop, getProp, default, id.
  unfold bind, ret.
  destruct (strictEqStr (lookupProp "status" props) "1"); [|reflexivity].
  destruct (lookupProp "result" props) as [| |b|text|s|items|props'];
    cbn [truthy sliceMap]; try reflexivity.
  - destruct b; reflexivity.
  - destruct (String.eqb text "0"); reflexivity.
  - destruct (String.eqb s ""); reflexivity.
  - match goal with
    | |- context [mapM formatTransaction ?l ?s] =>
        destruct (mapM_formatTransaction l s) as (r & Hrun & Hr); rewrite Hrun
    end.
    destruct (normaliseAll (take 10 items)) as [ts|].
    + by subst r.
    + by destruct Hr as [e ->].
Qed.

Lemma fetchTokenBalances_run (owner : string) (st : Store) :
  fetchTokenBalances owner st = (Ok tt, (fetchTokenBalances owner st).2).
Proof.
  unfold fetchTokenBalances.
  destruct (fetchTokenBalancesOf_frame tokens owner st) as (bs & calls & Hrun).
  by rewrite Hrun.
Qed.

Lemma fetchTransactions_total (owner : string) (st : Store) :
  fetchTransactions owner st = (Ok tt, (fetchTransactions owner st).2).
Proof. by rewrite fetchTransactions_run. Qed.

(** The two best-effort fetches leave the session, the refresh flag and the
    toasts as they are, and only add to the requests made. *)
Lemma fetchTokenBalances_frame (owner : string) (st : Store) :
  let st' := (fetchTokenBalances owner st).2 in
  walletState st' = walletState st
  /\ transactions st' = transactions st
  /\ isRefreshing st' = isRefreshing st
  /\ fetched st' = fetched st
  /\ toasts st' = toasts st
  /\ exists calls, requests st' = requests st ++ calls.
Proof.
  unfold fetchTokenBalances.
  destruct (fetchTokenBalancesOf_frame tokens owner st) as (bs & calls & Hrun).
  rewrite Hrun. simpl. repeat split; eauto.
Qed.

Lemma fetchTransactions_frame (owner : string) (st : Store) :
  let st' := (fetchTransactions owner st).2 in
  walletState st' = walletState st
  /\ tokenBalances st' = tokenBalances st
  /\ isRefreshing st' = isRefreshing st
  /\ requests st' = requests st
  /\ toasts st' = toasts st
  /\ fetched st' = fetched st ++ [historyUrl owner].
Proof.
  rewrite fetchTransactions_run.
  by destruct (historyOutcome _).
Qed.

(** *** Connecting *)

Lemma connectWallet_run (st : Store) : connectWallet st = (Ok tt, connectOutcome st).
Proof.
  unfold connectWallet, connectOutcome, tryCatch. unfold bind at 1.
  cbn [setWalletState]. unfold bind at 1.
  destruct ethereum as [p|] eqn:Hp.
  2: { rewrite request_missing by exact Hp. unfold afterFailure. simpl.
       by rewrite app_nil_r. }
  rewrite (request_provider p) by exact Hp. cbn [requests].
  destruct (p (requests st) eth_requestAccounts) as [accounts|e]; [|reflexivity].
  destruct (rpcFirst accounts) as [account|]; [|reflexivity].
  unfold bind at 1. rewrite (request_provider p) by exact Hp.
  rewrite logRequests_app. cbn [requests logRequests app].
  destruct (p (requests st ++ [eth_requestAccounts]) eth_chainId) as [chainIdHex|e];
    [|reflexivity].
  unfold bind at 1. rewrite (request_provider p) by exact Hp.
  rewrite logRequests_app. cbn [requests logRequests app].
  destruct (p (requests st ++ [eth_requestAccounts; eth_chainId])
              (eth_getBalance account "latest")) as [balanceWei|e]; [|reflexivity].
  unfold bind at 1. cbn [setWalletState]. unfold bind at 1.
  rewrite fetchTokenBalances_run. unfold bind at 1.
  rewrite fetchTransactions_total. reflexivity.
Qed.

Lemma mandatory_failure_outcome (st : Store) (e : Thrown) (calls : list Request) :
  MandatoryFailure st e calls -> connectOutcome st = afterFailure e calls st.
Proof.
  unfold connectOutcome.
  intros [Hp | p e' Hp Hacc | p accounts Hp Hacc Hlen
          | p accounts e' Hp Hacc Hlen Hchain
          | p accounts chainIdHex account e' Hp Hacc Hfirst Hchain Hbal]; rewrite Hp.
  - reflexivity.
  - by rewrite Hacc.
  - rewrite Hacc. by rewrite (proj2 (rpcFirst_None accounts) Hlen).
  - rewrite Hacc. destruct (rpcFirst accounts) as [account|] eqn:Hfirst.
    + by rewrite Hchain.
    + by apply rpcFirst_None in Hfirst.
  - by rewrite Hacc, Hfirst, Hchain, Hbal.
Qed.

(** The failures of [MandatoryFailure] are all the ways [connectWallet]
    can fail: otherwise the three mandatory requests resolved and the
    connected session has been written. *)
Lemma connectOutcome_cases (st : Store) :
  (exists e calls, MandatoryFailure st e calls)
  \/ (exists account chainIdHex balanceWei,
        connectOutcome st = afterSuccess account chainIdHex balanceWei st
        /\ walletState (connectOutcome st)
           = connectedSession account chainIdHex balanceWei).
Proof.
  unfold connectOutcome.
  destruct ethereum as [p|] eqn:Hp; [|left; eauto using ProviderMissing].
  destruct (p (requests st) eth_requestAccounts) as [accounts|e] eqn:Hacc;
    [|left; eauto using AccountsRejected].
  destruct (rpcFirst accounts) as [account|] eqn:Hfirst.
  2: { left. apply rpcFirst_None in Hfirst. eauto using AccountsEmpty. }
  assert (Hlen : rpcLength accounts <> 0%nat)
    by (intros Hzero; apply rpcFirst_None in Hzero; congruence).
  destruct (p (requests st ++ [eth_requestAccounts]) eth_chainId)
    as [chainIdHex|e] eqn:Hchain; [|left; eauto using ChainIdRejected].
  destruct (p (requests st ++ [eth_requestAccounts; eth_chainId])
              (eth_getBalance account "latest")) as [balanceWei|e] eqn:Hbal;
    [|left; eauto using BalanceRejected].
  right. exists account, chainIdHex, balanceWei. split; [reflexivity|].
  unfold afterSuccess. cbn [toast snd walletState].
  match goal with
  | |- context [fetchTransactions ?a ?s] =>
      destruct (fetchTransactions_frame a s) as (Hw & _); rewrite Hw
  end.
  match goal with
  | |- context [fetchTokenBalances ?a ?s] =>
      destruct (fetchTokenBalances_frame a s) as (Hw' & _); rewrite Hw'
  end.
  reflexivity.
Qed.

(** With a provider, what [connectWallet] asks first is the accounts-access
    request. *)
Lemma connectOutcome_requests (p : Provider) (st : Store) :
  ethereum = Some p ->
  exists rest, requests (connectOutcome st) = requests st ++ eth_requestAccounts :: rest.
Proof.
  intros Hp. unfold connectOutcome. rewrite Hp.
  destruct (p (requests st) eth_requestAccounts) as [accounts|e]; [|by eexists].
  destruct (rpcFirst accounts) as [account|]; [|by eexists].
  destruct (p (requests st ++ [eth_requestAccounts]) eth_chainId) as [chainIdHex|e];
    [|by eexists].
  destruct (p _ (eth_getBalance account "latest")) as [balanceWei|e]; [|by eexists].
  unfold afterSuccess. cbn [toast snd requests].
  destruct (fetchTransactions_frame account
              (fetchTokenBalances account
                 {| walletState := connectedSession account chainIdHex balanceWei;
                    tokenBalances := tokenBalances st;
                    transactions := transactions st;
                    isRefreshing := isRefreshing st;
                    requests := requests st ++ [eth_requestAccounts; eth_chainId;
                                                eth_getBalance account "latest"];
                    fetched := fetched st;
                    toasts := toasts st |}).2) as (_ & _ & _ & Hreq & _).
  rewrite Hreq.
  destruct (fetchTokenBalances_frame account
              {| walletState := connectedSession account chainIdHex balanceWei;
                 tokenBalances := tokenBalances st;
                 transactions := transactions st;
                 isRefreshing := isRefreshing st;
                 requests := requests st ++ [eth_requestAccounts; eth_chainId;
                                             eth_getBalance account "latest"];
                 fetched := fetched st;
                 toasts := toasts st |}) as (_ & _ & _ & _ & _ & calls & Hcalls).
  rewrite Hcalls. cbn [requests]. rewrite <- app_assoc. by eexists.
Qed.

(** On every path [connectWallet] ends with the loading flag reset, and it
    never touches the refresh flag. *)
Lemma connectOutcome_flags (st : Store) :
  isLoading (walletState (connectOutcome st)) = false
  /\ isRefreshing (connectOutcome st) = isRefreshing st.
Proof.
  unfold connectOutcome.
  repeat match goal with
         | |- context [match ?x with _ => _ end] => destruct x
         end; try (split; reflexivity).
  unfold afterSuccess. cbn [toast snd walletState isRefreshing].
  match goal with
  | |- context [fetchTransactions ?a ?s] =>
      destruct (fetchTransactions_frame a s) as (Hw & _ & Hr & _); rewrite Hw, Hr
  end.
  match goal with
  | |- context [fetchTokenBalances ?a ?s] =>
      destruct (fetchTokenBalances_frame a s) as (Hw' & _ & Hr' & _); rewrite Hw', Hr'
  end.
  split; reflexivity.
Qed.

(** *** The startup probe and the refresh *)

Lemma checkWalletConnection_run (st : Store) :
  checkWalletConnection st = (Ok tt, probeOutcome st).
Proof.
  unfold checkWalletConnection, probeOutcome, tryCatch.
  destruct ethereum as [p|] eqn:Hp; [|reflexivity].
  unfold bind. rewrite (request_provider p) by exact Hp.
  destruct (p (requests st) eth_accounts) as [accounts|e]; [|reflexivity].
  destruct (0 <? rpcLength accounts)%nat; [|reflexivity].
  by rewrite connectWallet_run.
Qed.

Lemma refreshWalletData_run (account : string) (st : Store) :
  address (walletState st) = Some account ->
  String.eqb account "" = false ->
  refreshWalletData st = (Ok tt, refreshOutcome account st).
Proof.
  intros Haddress Hpresent.
  unfold refreshWalletData, refreshOutcome. unfold bind at 1. unfold getWalletState.
  rewrite Haddress, Hpresent. unfold bind at 1. cbn [setIsRefreshing snd].
  unfold tryCatchFinally, tryCatch. unfold bind at 1.
  destruct ethereum as [p|] eqn:Hp.
  2: { by rewrite request_missing by exact Hp. }
  rewrite (request_provider p) by exact Hp. cbn [requests].
  destruct (p (requests st) (eth_getBalance account "latest")) as [balanceWei|e];
    [|reflexivity].
  unfold bind at 1. unfold withBalance. cbn [setWalletState]. unfold bind at 1.
  rewrite fetchTokenBalances_run. unfold bind at 1.
  by rewrite fetchTransactions_total.
Qed.

(** A refresh ends with the refresh flag reset, and changes nothing of the
    session but the balance. *)
Lemma refreshOutcome_flags (account : string) (st : Store) :
  let st' := refreshOutcome account st in
  isRefreshing st' = false
  /\ isLoading (walletState st') = isLoading (walletState st)
  /\ isConnected (walletState st') = isConnected (walletState st)
  /\ error (walletState st') = error (walletState st).
Proof.
  unfold refreshOutcome. cbn [setIsRefreshing snd isRefreshing walletState].
  split; [reflexivity|].
  destruct ethereum as [p|]; [|repeat split].
  destruct (p (requests st) (eth_getBalance account "latest")) as [balanceWei|e];
    [|repeat split].
  cbn [toast snd walletState].
  match goal with
  | |- context [fetchTransactions ?a ?s] =>
      destruct (fetchTransactions_frame a s) as (Hw & _); rewrite Hw
  end.
  match goal with
  | |- context [fetchTokenBalances ?a ?s] =>
      destruct (fetchTokenBalances_frame a s) as (Hw' & _); rewrite Hw'
  end.
  repeat split.
Qed.

(** *** Facts about the payload and the catalog *)

Lemma transactions_applyOutcome (owner : string) (o : HistoryOutcome) (st : Store) :
  transactions (applyOutcome owner o st)
  = match o with
    | Placeholder => mockTransactions owner
    | Unchanged => transactions st
    | Replaced txs => txs
    end.
Proof. by destruct o. Qed.

Lemma field_status_getProp (data : JsVal) (s : string) :
  field data "status" = JStr s -> getProp data "status" = Some (JStr s).
Proof.
  unfold field. destruct (getProp data "status") as [v|]; simpl; [congruence|discriminate].
Qed.

Lemma Forall2_member_r {A B : Type} (P : A -> B -> Prop) (l : list A) (k : list B)
    (y : B) :
  Forall2 P l k -> y ∈ k -> exists x, x ∈ l /\ P x y.
Proof.
  intros Hrel Hin. apply list_elem_of_lookup_1 in Hin as [i Hi].
  destruct (Forall2_lookup_r _ _ _ _ _ Hrel Hi) as (x & Hx & Hxy).
  exists x. split; [by eapply list_elem_of_lookup_2 | exact Hxy].
Qed.

Lemma normalise_fields (tx : JsVal) (r : Transaction) :
  normalise tx = Some r ->
  hash r = field tx "hash"
  /\ from r = field tx "from"
  /\ to r = field tx "to"
  /\ gasUsed r = field tx "gasUsed"
  /\ timestamp r = timeOf tx
  /\ status r = (if strictEqStr (field tx "isError") "0" then success else failed).
Proof.
  unfold normalise, timeOf. destruct (isNullish tx); [discriminate|].
  destruct (toStr (field tx "value")); [|discriminate].
  destruct (toStr (field tx "gasPrice")); [|discriminate].
  destruct (toStr (field tx "blockNumber")); [|discriminate].
  destruct (toStr (field tx "timeStamp")); [|discriminate].
  intros Heq. injection Heq as <-. repeat split.
Qed.

Lemma normalise_record (tx : JsVal) : isRecord tx -> is_Some (normalise tx).
Proof.
  intros (Hnull & Hfields). unfold normalise. rewrite Hnull.
  unfold numericFields in Hfields.
  repeat match goal with
         | Hf : Forall _ (_ :: _) |- _ =>
             apply Forall_cons in Hf as [[? ->] Hf]
         end.
  by eexists.
Qed.


Lemma normaliseAll_records (items : list JsVal) :
  Forall isRecord items ->
  exists txs,
    normaliseAll items = Some txs
    /\ Forall2 (fun tx r => normalise tx = Some r) items txs.
Proof.
  induction 1 as [|tx items Htx _ (txs & Hall & Hrel)]; [by exists []|].
  destruct (normalise_record tx Htx) as [r Hr].
  exists (r :: txs). cbn [normaliseAll]. rewrite Hr, Hall.
  split; [reflexivity | by constructor].
Qed.







Lemma payloadOutcome_records (data : JsVal) (items : list JsVal) :
  field data "status" = JStr "1" ->
  field data "result" = JArr items ->
  Forall isRecord (take 10 items) ->
  exists txs,
    payloadOutcome data = Replaced txs
    /\ Forall2 (fun tx r => normalise tx = Some r) (take 10 items) txs.
Proof.
  intros Hstatus Hresult Hrecords. unfold payloadOutcome.
  rewrite (field_status_getProp data "1" Hstatus), Hresult. simpl.
  destruct (normaliseAll_records _ Hrecords) as (txs & -> & Hrel). eauto.
Qed.

Lemma tokenReplies_length (p : Provider) (owner : string) (catalog : list Token) :
  forall history, length (tokenReplies p history owner catalog) = length catalog.
Proof. induction catalog as [|token rest IH]; intros history; simpl; [reflexivity | by rewrite IH]. Qed.

Lemma entryOf_held (token : Token) (reply : Reply) :
  isHeld token reply = true <-> is_Some (entryOf token reply).
Proof.
  destruct reply as [v|e]; simpl.
  - destruct (quotPositive _ _).
    + split; [intros _; by eexists | reflexivity].
    + split; [discriminate | intros [x Hx]; discriminate].
  - split; [discriminate | intros [x Hx]; discriminate].
Qed.

Lemma entriesOf_length (catalog : list Token) :
  forall replies,
    length (entriesOf catalog replies) = countPairs isHeld catalog replies.
Proof.
  unfold entriesOf, countPairs.
  induction catalog as [|token rest IH]; intros [|reply replies]; try reflexivity.
  cbn [zip zip_with omap list_omap List.filter fst snd]. specialize (IH replies).
  destruct (isHeld token reply) eqn:Hheld.
  - apply entryOf_held in Hheld as [entry Hentry]. rewrite Hentry. simpl. by rewrite IH.
  - destruct (entryOf token reply) eqn:Hentry; [|exact IH].
    assert (isHeld token reply = true) by (apply entryOf_held; eauto). congruence.
Qed.

Lemma countPairs_partition (catalog : list Token) :
  forall replies,
    length replies = length catalog ->
    (countPairs isHeld catalog replies
     + countPairs (fun _ => isReject) catalog replies
     + countPairs isEmptyBalance catalog replies)%nat = length catalog.
Proof.
  unfold countPairs, isEmptyBalance.
  induction catalog as [|token rest IH]; intros [|reply replies] Hlen;
    try discriminate; [reflexivity|].
  injection Hlen as Hlen. specialize (IH replies Hlen).
  cbn [zip zip_with List.filter fst snd].
  destruct reply as [v|e]; cbn [isReject isHeld negb andb].
  - destruct (quotPositive _ _); simpl; lia.
  - simpl. lia.
Qed.

Lemma entriesOf_origin (catalog : list Token) :
  forall replies entry,
    entry ∈ entriesOf catalog replies ->
    exists token v,
      (token, Resolve v) ∈ zip catalog replies
      /\ isHeld token (Resolve v) = true
      /\ symbol entry = tk_symbol token
      /\ contractAddress entry = tk_contractAddress token
      /\ decimals entry = tk_decimals token.
Proof.
  unfold entriesOf. intros replies entry Hin.
  apply list_elem_of_omap in Hin as ([token reply] & Hpair & Hentry).
  simpl in Hentry. destruct reply as [v|e]; [|discriminate].
  exists token, v. split; [exact Hpair|].
  simpl in *. destruct (quotPositive _ _); [|discriminate].
  injection Hentry as <-. repeat split.
Qed.

End Behaviour.

(** ** The claims *)

Section Claims.
Context `{Engine} `{Browser}.

(** C4. From every store, [disconnectWallet] completes and leaves the
    session in its default disconnected shape (not connected; no address,
    balance, network, chain identifier or error; not loading), with the
    token-balance list and the transaction list empty. *)
Theorem disconnect_resets_everything (st : Store) :
  let st' := (disconnectWallet st).2 in
  (disconnectWallet st).1 = Ok tt
  /\ walletState st'
     = {| isConnected := false; address := None; balance := None;
          network := None; chainId := None; isLoading := false; error := None |}
  /\ walletState st' = walletState initialStore
  /\ tokenBalances st' = []
  /\ transactions st' = [].
Proof.
  unfold disconnectWallet, bind. destruct st as [ws tbs txs refreshing reqs urls ts].
  cbn. repeat split.
Qed.

(** C10. When the session has no address ([null] or empty), refreshing
    returns at once: the store is exactly what it was, so no provider
    request and no fetch is made, and the session, the token list, the
    transaction list and the refresh flag are unchanged. *)
Theorem refresh_without_address_is_noop (st : Store) :
  noAddress (walletState st) = true ->
  refreshWalletData st = (Ok tt, st)
  /\ requests (refreshWalletData st).2 = requests st
  /\ fetched (refreshWalletData st).2 = fetched st
  /\ isRefreshing (refreshWalletData st).2 = isRefreshing st.
Proof.
  intros Hnone.
  assert (Hrun : refreshWalletData st = (Ok tt, st)).
  { unfold noAddress in Hnone. unfold refreshWalletData, bind, getWalletState.
    destruct (address (walletState st)) as [account|]; [|reflexivity].
    by rewrite Hnone. }
  rewrite Hrun. repeat split.
Qed.

(** C7. When the accounts-access request resolves to an empty list,
    [connectWallet] completes with the session's error set to
    "No accounts found" and the loading flag reset; every other field of the
    session, the token list and the transaction list are as before, so a
    disconnected session stays disconnected, with no address and no
    balance. *)
Theorem connect_without_accounts (p : Provider) (accounts : RpcValue) (st : Store) :
  ethereum = Some p ->
  p (requests st) eth_requestAccounts = Resolve accounts ->
  rpcLength accounts = 0%nat ->
  let st' := (connectWallet st).2 in
  (connectWallet st).1 = Ok tt
  /\ error (walletState st') = Some "No accounts found"
  /\ isLoading (walletState st') = false
  /\ isConnected (walletState st') = isConnected (walletState st)
  /\ address (walletState st') = address (walletState st)
  /\ balance (walletState st') = balance (walletState st)
  /\ network (walletState st') = network (walletState st)
  /\ chainId (walletState st') = chainId (walletState st)
  /\ tokenBalances st' = tokenBalances st
  /\ transactions st' = transactions st
  /\ requests st' = requests st ++ [eth_requestAccounts]
  /\ (walletState st = defaultWalletState ->
      walletState st' = failedSession defaultWalletState "No accounts found").
Proof.
  intros Hp Haccounts Hempty.
  rewrite connectWallet_run.
  rewrite (mandatory_failure_outcome st _ _ (AccountsEmpty st p accounts Hp Haccounts Hempty)).
  cbn. repeat split. by intros ->.
Qed.

(** C3. When a mandatory step of [connectWallet] fails (no provider, the
    accounts request, an empty account list, the chain-id request or the
    balance request), the call completes with the session's error set to the
    failure's message, which is the message of the [Error] that was thrown
    and the text "Failed to connect wallet" for any other thrown value, and
    with the loading flag reset, while every other field of the session, the
    token list, the transaction list and the refresh flag keep their values;
    no request follows the failed one and nothing is fetched.  On every path
    [connectWallet] completes with the loading flag reset and the refresh
    flag untouched, these failures being the only runs that do not end
    connected; and on every path [refreshWalletData] completes without
    touching the loading flag, with the refresh flag reset whenever the
    refresh started (without an address it returns at once and changes
    nothing). *)
Theorem connect_failure_surfaces_error (st : Store) :
  let st' := (connectWallet st).2 in
  let refreshed := (refreshWalletData st).2 in
  (forall e calls,
      MandatoryFailure st e calls ->
      (connectWallet st).1 = Ok tt
      /\ error (walletState st')
         = Some match e with
                | ErrorObj message => message
                | NonError _ => "Failed to connect wallet"
                end
      /\ isLoading (walletState st') = false
      /\ isConnected (walletState st') = isConnected (walletState st)
      /\ address (walletState st') = address (walletState st)
      /\ balance (walletState st') = balance (walletState st)
      /\ network (walletState st') = network (walletState st)
      /\ chainId (walletState st') = chainId (walletState st)
      /\ tokenBalances st' = tokenBalances st
      /\ transactions st' = transactions st
      /\ isRefreshing st' = isRefreshing st
      /\ requests st' = requests st ++ calls
      /\ fetched st' = fetched st
      /\ toasts st' = toasts st ++ [(ToastError, "Failed to connect wallet 😔")])
  /\ ((connectWallet st).1 = Ok tt
      /\ isLoading (walletState st') = false
      /\ isRefreshing st' = isRefreshing st
      /\ ((exists e calls, MandatoryFailure st e calls)
          \/ isConnected (walletState st') = true))
  /\ ((refreshWalletData st).1 = Ok tt
      /\ isLoading (walletState refreshed) = isLoading (walletState st)
      /\ (noAddress (walletState st) = true -> refreshed = st)
      /\ (noAddress (walletState st) = false -> isRefreshing refreshed = false)).
Proof.
  cbv zeta. split; [|split].
  - intros e calls Hfail.
    rewrite connectWallet_run, (mandatory_failure_outcome st e calls Hfail).
    cbn. destruct e; repeat split.
  - rewrite connectWallet_run. cbn [fst snd].
    destruct (connectOutcome_flags st) as [Hloading Hrefreshing].
    split; [reflexivity|]. split; [assumption|]. split; [assumption|].
    destruct (connectOutcome_cases st)
      as [Hfailed | (account & chainIdHex & balanceWei & _ & Hsession)].
    + by left.
    + right. by rewrite Hsession.
  - destruct (noAddress (walletState st)) eqn:Hnone.
    + assert (Hrun : refreshWalletData st = (Ok tt, st)).
      { unfold noAddress in Hnone. unfold refreshWalletData, bind, getWalletState.
        destruct (address (walletState st)) as [account|]; [|reflexivity].
        by rewrite Hnone. }
      rewrite Hrun. repeat split. discriminate.
    + unfold noAddress in Hnone.
      destruct (address (walletState st)) as [account|] eqn:Haddress; [|discriminate].
      rewrite (refreshWalletData_run account st Haddress Hnone). cbn [fst snd].
      destruct (refreshOutcome_flags account st) as (Hr & Hl & _).
      repeat split; try assumption. discriminate.
Qed.

(** C2, amended. The startup probe first asks the provider for the accounts
    already authorised, with the non-prompting [eth_accounts]; without a
    provider it asks nothing.  When that query is rejected or returns no
    account, nothing else is requested.  When it returns an account, the
    probe runs [connectWallet], whose first request is the accounts-access
    request [eth_requestAccounts]. *)
Theorem startup_probe_requests (st : Store) :
  (checkWalletConnection st).1 = Ok tt
  /\ (ethereum = None -> checkWalletConnection st = (Ok tt, st))
  /\ (forall p e,
        ethereum = Some p ->
        p (requests st) eth_accounts = Reject e ->
        checkWalletConnection st = (Ok tt, logRequests [eth_accounts] st))
  /\ (forall p accounts,
        ethereum = Some p ->
        p (requests st) eth_accounts = Resolve accounts ->
        rpcLength accounts = 0%nat ->
        checkWalletConnection st = (Ok tt, logRequests [eth_accounts] st))
  /\ (forall p accounts,
        ethereum = Some p ->
        p (requests st) eth_accounts = Resolve accounts ->
        rpcLength accounts <> 0%nat ->
        checkWalletConnection st = connectWallet (logRequests [eth_accounts] st)
        /\ exists rest,
             requests (checkWalletConnection st).2
             = requests st ++ eth_accounts :: eth_requestAccounts :: rest).
Proof.
  rewrite checkWalletConnection_run. unfold probeOutcome.
  split; [reflexivity|]. split; [by intros ->|].
  split; [intros p e -> Hreply; by rewrite Hreply|].
  split; [intros p accounts -> Hreply Hlen; by rewrite Hreply, Hlen|].
  intros p accounts Hp Hreply Hlen. rewrite Hp, Hreply.
  destruct (Nat.ltb_spec 0 (rpcLength accounts)) as [_|Hzero]; [|lia].
  rewrite connectWallet_run. split; [reflexivity|]. cbn [snd].
  destruct (connectOutcome_requests p (logRequests [eth_accounts] st) Hp) as [rest Hrest].
  exists rest. rewrite Hrest. cbn [requests logRequests]. by rewrite <- app_assoc.
Qed.


(** C6, amended. When the history service answers successfully (HTTP
    success, status "1", a list whose first ten entries are records: neither
    [null] nor [undefined], with numeric fields that convert to strings), the
    transaction list becomes the normalisation of the first ten records of
    the list, in the order of the list: at most ten records, each one's
    status being [success] exactly when the record's error flag is the string
    "0" and [failed] otherwise, never [pending].  The component does not
    sort: the request asks the service for [sort=desc], and when the list
    comes most recent first, the records kept are the most recent ones, most
    recent first. *)
Theorem history_keeps_first_ten (owner : string) (st : Store)
    (data : JsVal) (items : list JsVal) :
  fetch (historyUrl owner) = FetchResponse true (BodyJson data) ->
  field data "status" = JStr "1" ->
  field data "result" = JArr items ->
  Forall isRecord (take 10 items) ->
  let txs' := transactions (fetchTransactions owner st).2 in
  historyUrl owner
  = "https://api.etherscan.io/api?module=account&action=txlist&address="
      +:+ owner +:+ "&sort=desc&apikey=" +:+ orElse etherscanApiKey "demo"
  /\ (length txs' <= 10)%nat
  /\ length txs' = Nat.min 10 (length items)
  /\ Forall2 (fun tx r =>
                normalise tx = Some r
                /\ (status r = success <-> field tx "isError" = JStr "0")
                /\ (status r = failed <-> field tx "isError" <> JStr "0")
                /\ status r <> pending
                /\ timestamp r = timeOf tx
                /\ hash r = field tx "hash")
       (take 10 items) txs'
  /\ (StronglySorted (fun earlier later => noLater (timeOf later) (timeOf earlier)) items ->
      StronglySorted
        (fun earlier later => noLater (timestamp later) (timestamp earlier)) txs'
      /\ forall tx r, tx ∈ drop 10 items -> r ∈ txs' -> noLater (timeOf tx) (timestamp r)).
Proof.
  intros Hfetch Hstatus Hresult Hrecords. cbv zeta.
  rewrite fetchTransactions_run. cbn [snd]. rewrite transactions_applyOutcome.
  rewrite Hfetch. cbn [historyOutcome].
  destruct (payloadOutcome_records data items Hstatus Hresult Hrecords)
    as (txs & -> & Hrel).
  pose proof (Forall2_length _ _ _ Hrel) as Hlen. rewrite length_take in Hlen.
  split; [reflexivity|]. split; [lia|]. split; [lia|].
  split.
  { eapply Forall2_impl; [exact Hrel|]. intros tx r Hr. cbn beta in Hr.
    destruct (normalise_fields tx r Hr) as (Hhash & _ & _ & _ & Htime & Hflag).
    split; [exact Hr|]. rewrite Hflag.
    destruct (strictEqStr (field tx "isError") "0") eqn:Heq.
    - apply strictEqStr_true in Heq. repeat split; congruence.
    - assert (field tx "isError" <> JStr "0")
        by (intros Hzero; apply strictEqStr_true in Hzero; congruence).
      repeat split; congruence. }
  intros Hsorted.
  assert (Htimes : Forall2 (fun tx r => timestamp r = timeOf tx) (take 10 items) txs).
  { eapply Forall2_impl; [exact Hrel|]. intros tx r Hr.
    by destruct (normalise_fields tx r Hr) as (_ & _ & _ & _ & Htime & _). }
  rewrite <- (take_drop 10 items) in Hsorted.
  apply StronglySorted_app in Hsorted as (Hcross & Hkept & _).
  split.
  { clear Hrel Hcross Hlen Hrecords. revert Hkept.
    induction Htimes as [|tx r l l' Htime Hrest IH]; intros Hkept; [constructor|].
    inversion Hkept as [|? ? Hsorted Hfirst]; subst.
    constructor; [by apply IH|].
    apply Forall_forall. intros r' Hin.
    destruct (Forall2_member_r _ _ _ _ Hrest Hin) as (tx' & Hin' & Htime').
    rewrite Htime, Htime'. by apply (proj1 (Forall_forall _ _) Hfirst). }
  intros tx r Hdropped Hkeptr.
  destruct (Forall2_member_r _ _ _ _ Htimes Hkeptr) as (tx' & Hin' & Htime').
  rewrite Htime'. by apply Hcross.
Qed.

(** C5, amended. With a provider, for every catalog and whatever calls
    fail, fetching token balances completes, queries every token of the
    catalog in order, and sets the token list to the tokens whose call
    resolved to a positive balance, in catalog order: a token whose call
    fails is omitted, and so is a token whose balance is not positive.  The
    number of entries is the number of tokens minus the failed calls minus
    the balances that are not positive; with three tokens and one failed call
    there are at most two entries, and exactly two when both other balances
    are positive. *)
Theorem failed_token_is_skipped (p : Provider) (catalog : list Token)
    (owner : string) (st : Store) :
  ethereum = Some p ->
  let replies := tokenReplies p (requests st) owner catalog in
  let st' := (fetchTokenBalancesOf catalog owner st).2 in
  (fetchTokenBalancesOf catalog owner st).1 = Ok tt
  /\ requests st' = requests st ++ (callOf owner <$> catalog)
  /\ tokenBalances st' = entriesOf catalog replies
  /\ (forall entry,
        entry ∈ tokenBalances st' ->
        exists token v,
          (token, Resolve v) ∈ zip catalog replies
          /\ isHeld token (Resolve v) = true
          /\ symbol entry = tk_symbol token
          /\ contractAddress entry = tk_contractAddress token
          /\ decimals entry = tk_decimals token)
  /\ (length (tokenBalances st')
      + countPairs (fun _ => isReject) catalog replies
      + countPairs isEmptyBalance catalog replies)%nat = length catalog
  /\ (length catalog = 3%nat ->
      countPairs (fun _ => isReject) catalog replies = 1%nat ->
      (length (tokenBalances st') <= 2)%nat
      /\ (countPairs isEmptyBalance catalog replies = 0%nat ->
          length (tokenBalances st') = 2%nat)).
Proof.
  intros Hp. cbv zeta.
  rewrite (fetchTokenBalancesOf_provider p catalog owner st Hp).
  cbn [fst snd setTokenBalances tokenBalances requests logRequests].
  pose proof (countPairs_partition catalog _
                (tokenReplies_length p owner catalog (requests st))) as Hcount.
  rewrite <- (entriesOf_length catalog) in Hcount.
  split; [reflexivity|]. split; [reflexivity|]. split; [reflexivity|].
  split; [apply entriesOf_origin|].
  split; [exact Hcount|].
  intros Hthree Hone. split; [lia|]. intros Hnone. lia.
Qed.

(** C9. For an owner address made of "0x" and at most 64 further characters
    (40 hexadecimal digits for an account), the call data of the balance
    query is the selector 0x70a08231 followed by the address without its
    prefix, padded on the left with zeros to exactly 64 characters; and it is
    the data of every call that fetching token balances sends, one call per
    token of the catalog, to that token's contract. *)
Theorem balance_query_call_data (p : Provider) (catalog : list Token)
    (digits : string) (st : Store) :
  ethereum = Some p ->
  (String.length digits <= 64)%nat ->
  let owner := "0x" +:+ digits in
  let argument := repeatChar "0" (64 - String.length digits) +:+ digits in
  balanceOfCallData owner = "0x70a08231" +:+ argument
  /\ String.length argument = 64%nat
  /\ requests (fetchTokenBalancesOf catalog owner st).2
     = requests st
       ++ ((fun token =>
              eth_call (tk_contractAddress token) ("0x70a08231" +:+ argument) "latest")
           <$> catalog).
Proof.
  intros Hp Hlen. cbv zeta.
  assert (Hdata : balanceOfCallData ("0x" +:+ digits)
                  = "0x70a08231" +:+ repeatChar "0" (64 - String.length digits) +:+ digits)
    by reflexivity.
  split; [exact Hdata|]. split.
  - rewrite length_append, length_repeatChar. lia.
  - rewrite (fetchTokenBalancesOf_provider p catalog _ st Hp).
    cbn [snd setTokenBalances requests logRequests]. unfold callOf.
    by rewrite Hdata.
Qed.

End Claims.

(** ** The claims on the sample surroundings *)


(** An unreadable record among the first ten gives the placeholder; an
    empty result empties the list, here the placeholder's. *)
Example history_unreadable_record :
  transactions
    (@fetchTransactions exactEngine (historyBrowser (JArr [unreadableRecord]))
       sampleAccount initialStore).2
  = @mockTransactions (historyBrowser (JArr [unreadableRecord])) sampleAccount
  /\ transactions
       (@fetchTransactions exactEngine (historyBrowser (JArr [])) sampleAccount
          (@fetchTransactions exactEngine (historyBrowser (JArr [unreadableRecord]))
             sampleAccount initialStore).2).2
     = [].
Proof. split; reflexivity. Qed.

(** C2: with an account already authorised, the probe's second request is
    the accounts-access request. *)
Lemma startup_probe_requests_access :
  take 2 (requests (@checkWalletConnection exactEngine sampleBrowser initialStore).2)
  = [eth_accounts; eth_requestAccounts].
Proof. vm_compute. reflexivity. Qed.

(** C5: three tokens, one failed call, and no entry at all, the two other
    balances being zero. *)
Lemma three_tokens_one_failure_no_entry :
  length tokens = 3%nat
  /\ countPairs (fun _ => isReject) tokens
       (tokenReplies (sampleProvider (usdcReverts "0x0")) [] sampleAccount tokens)
     = 1%nat
  /\ tokenBalances
       (@fetchTokenBalances exactEngine emptyWalletBrowser sampleAccount initialStore).2
     = [].
Proof. vm_compute. repeat split. Qed.

(** C5 on the sample wallet: the USDC call reverts, the two other tokens
    are held, and the list has two entries. *)
Lemma failed_token_is_skipped_witness :
  @ethereum sampleBrowser = Some (sampleProvider (usdcReverts "0x0f4240"))
  /\ length
       (tokenBalances
          (@fetchTokenBalancesOf exactEngine sampleBrowser tokens sampleAccount
             initialStore).2)
     = 2%nat.
Proof.
  split; [reflexivity|].
  apply (@failed_token_is_skipped exactEngine sampleBrowser
           (sampleProvider (usdcReverts "0x0f4240")) tokens sampleAccount
           initialStore eq_refl);
    reflexivity.
Defined.

(** C3 on a wallet whose user declines the accounts request: the error
    shown is the message of the [Error] the wallet rejects with, and the
    fixed text when the wallet rejects with a value that is no [Error]. *)
Lemma connect_failure_surfaces_error_witness :
  @MandatoryFailure exactEngine refusedBrowser initialStore
    (ErrorObj "User rejected the request.") [eth_requestAccounts]
  /\ error (walletState (@connectWallet exactEngine refusedBrowser initialStore).2)
     = Some "User rejected the request."
  /\ isLoading (walletState (@connectWallet exactEngine refusedBrowser initialStore).2)
     = false
  /\ error (walletState (@connectWallet exactEngine plainRejectBrowser initialStore).2)
     = Some "Failed to connect wallet".
Proof.
  assert (Hfail : @MandatoryFailure exactEngine refusedBrowser initialStore
                    (ErrorObj "User rejected the request.") [eth_requestAccounts])
    by (apply (AccountsRejected initialStore refusingProvider); reflexivity).
  assert (Hplain : @MandatoryFailure exactEngine plainRejectBrowser initialStore
                     (NonError (JObj [ ("code", JNum "4001");
                                       ("message", JStr "User rejected the request.") ]))
                     [eth_requestAccounts])
    by (apply (AccountsRejected initialStore plainRejectingProvider); reflexivity).
  split; [exact Hfail|].
  destruct (proj1 (@connect_failure_surfaces_error exactEngine refusedBrowser
                     initialStore) _ _ Hfail) as (_ & Herror & Hloading & _).
  destruct (proj1 (@connect_failure_surfaces_error exactEngine plainRejectBrowser
                     initialStore) _ _ Hplain) as (_ & Herror' & _).
  split; [exact Herror|]. split; [exact Hloading | exact Herror'].
Defined.

(** C7 on a wallet that has authorised no account. *)
Lemma connect_without_accounts_witness :
  rpcLength (RList []) = 0%nat
  /\ error (walletState (@connectWallet exactEngine lockedBrowser initialStore).2)
     = Some "No accounts found"
  /\ isConnected (walletState (@connectWallet exactEngine lockedBrowser initialStore).2)
     = false.
Proof.
  split; [reflexivity|].
  destruct (@connect_without_accounts exactEngine lockedBrowser lockedProvider
              (RList []) initialStore eq_refl eq_refl eq_refl)
    as (_ & Herror & _ & Hconnected & _).
  split; [exact Herror | exact Hconnected].
Defined.

(** C10 on the initial store, which has no address. *)
Lemma refresh_without_address_is_noop_witness :
  noAddress (walletState initialStore) = true
  /\ @refreshWalletData exactEngine sampleBrowser initialStore = (Ok tt, initialStore).
Proof.
  split; [reflexivity|].
  apply (@refresh_without_address_is_noop exactEngine sampleBrowser initialStore).
  reflexivity.
Defined.

(** C9 on the sample account and the component's catalog. *)
Lemma balance_query_call_data_witness :
  balanceOfCallData sampleAccount
  = "0x70a08231000000000000000000000000dAC17F958D2ee523a2206206994597C13D831ec7"
  /\ requests
       (@fetchTokenBalancesOf exactEngine sampleBrowser tokens sampleAccount
          initialStore).2
     = [ eth_call "0xA0b86a33E6417c5c7c4c4c4c4c4c4c4c4c4c4c4c"
           "0x70a08231000000000000000000000000dAC17F958D2ee523a2206206994597C13D831ec7"
           "latest";
         eth_call "0xdAC17F958D2ee523a2206206994597C13D831ec7"
           "0x70a08231000000000000000000000000dAC17F958D2ee523a2206206994597C13D831ec7"
           "latest";
         eth_call "0x6B175474E89094C44Da98b954EedeAC495271d0F"
           "0x70a08231000000000000000000000000dAC17F958D2ee523a2206206994597C13D831ec7"
           "latest" ].
Proof.
  assert (Hlen : (String.length "dAC17F958D2ee523a2206206994597C13D831ec7" <= 64)%nat)
    by (vm_compute; lia).
  destruct (@balance_query_call_data exactEngine sampleBrowser
              (sampleProvider (usdcReverts "0x0f4240")) tokens
              "dAC17F958D2ee523a2206206994597C13D831ec7" initialStore eq_refl Hlen)
    as (Hdata & _ & Hcalls).
  split; [exact Hdata | exact Hcalls].
Defined.

(** C6 on the twelve sample records, most recent first: ten are kept, most
    recent first. *)
Lemma history_keeps_first_ten_witness :
  length
    (transactions
       (@fetchTransactions exactEngine sampleBrowser sampleAccount initialStore).2)
  = 10%nat
  /\ StronglySorted (fun earlier later => noLater (timestamp later) (timestamp earlier))
       (transactions
          (@fetchTransactions exactEngine sampleBrowser sampleAccount initialStore).2)
  /\ length
       (transactions
          (@fetchTransactions exactEngine trailingNullBrowser sampleAccount
             initialStore).2)
     = 10%nat.
Proof.
  assert (Hrecords : Forall isRecord (take 10 sampleRecords))
    by (repeat (constructor; [split; [reflexivity | repeat constructor; by eexists]|]);
        constructor).
  assert (Hsorted : StronglySorted
                      (fun earlier later => noLater (timeOf later) (timeOf earlier))
                      sampleRecords).
  { unfold sampleRecords.
    repeat (apply SSorted_cons;
            [|repeat (constructor; [vm_compute; discriminate|]); constructor]).
    apply SSorted_nil. }
  destruct (@history_keeps_first_ten exactEngine sampleBrowser sampleAccount
              initialStore samplePayload sampleRecords eq_refl eq_refl eq_refl
              Hrecords) as (_ & _ & Hlength & _ & Hrecent).
  destruct (@history_keeps_first_ten exactEngine trailingNullBrowser sampleAccount
              initialStore trailingNullPayload (sampleRecords ++ [JNull])
              eq_refl eq_refl eq_refl Hrecords) as (_ & _ & Hlength' & _).
  split; [exact Hlength|]. split; [exact (proj1 (Hrecent Hsorted)) | exact Hlength'].
Defined.

(** C6: a list that comes oldest first is kept oldest first, and its two
    most recent records (mined at 1700001100 and 1700001200) are the ones
    dropped. *)
Lemma history_keeps_response_order :
  @fetch ascendingBrowser (@historyUrl ascendingBrowser sampleAccount)
  = FetchResponse true (BodyJson ascendingPayload)
  /\ timestamp
       <$> transactions
             (@fetchTransactions exactEngine ascendingBrowser sampleAccount
                initialStore).2
     = [ Int 1700000100; Int 1700000200; Int 1700000300; Int 1700000400;
         Int 1700000500; Int 1700000600; Int 1700000700; Int 1700000800;
         Int 1700000900; Int 1700001000 ].
Proof. split; [reflexivity | vm_compute; reflexivity]. Qed.

(** * Further properties of the component *)

Section Further.
Context `{Engine} `{Browser}.

(** ** Helper facts *)

(** The ways a refresh for [account] can go, with what each leaves. *)
Lemma refreshOutcome_cases (account : string) (st : Store) :
  ((ethereum = None
    \/ exists p e, ethereum = Some p
                   /\ p (requests st) (eth_getBalance account "latest") = Reject e)
   /\ walletState (refreshOutcome account st) = walletState st
   /\ tokenBalances (refreshOutcome account st) = tokenBalances st
   /\ transactions (refreshOutcome account st) = transactions st
   /\ isRefreshing (refreshOutcome account st) = false
   /\ fetched (refreshOutcome account st) = fetched st
   /\ toasts (refreshOutcome account st)
      = toasts st ++ [(ToastError, "Failed to refresh data")]
   /\ (ethereum = None -> requests (refreshOutcome account st) = requests st)
   /\ (ethereum <> None ->
       requests (refreshOutcome account st)
       = requests st ++ [eth_getBalance account "latest"]))
  \/ (exists p balanceWei,
        ethereum = Some p
        /\ p (requests st) (eth_getBalance account "latest") = Resolve balanceWei
        /\ walletState (refreshOutcome account st)
           = withBalance balanceWei (walletState st)
        /\ isRefreshing (refreshOutcome account st) = false
        /\ requests (refreshOutcome account st)
           = requests st ++ eth_getBalance account "latest" :: (callOf account <$> tokens)
        /\ tokenBalances (refreshOutcome account st)
           = entriesOf tokens
               (tokenReplies p (requests st ++ [eth_getBalance account "latest"])
                  account tokens)
        /\ fetched (refreshOutcome account st) = fetched st ++ [historyUrl account]
        /\ toasts (refreshOutcome account st)
           = toasts st ++ [(ToastSuccess, "Data refreshed! 🔄")]).
Proof.
  unfold refreshOutcome.
  destruct ethereum as [p|] eqn:Hp.
  2: { left. cbn. repeat split; eauto. intros Hne. by destruct Hne. }
  destruct (p (requests st) (eth_getBalance account "latest")) as [balanceWei|e] eqn:Hreply.
  2: { left. cbn. repeat split; eauto. intros Hnone. discriminate. }
  right. exists p, balanceWei. split; [reflexivity|]. split; [exact Hreply|].
  cbn [setIsRefreshing toast snd walletState isRefreshing requests tokenBalances
       fetched toasts].
  match goal with
  | |- context [fetchTransactions ?a ?s] =>
      destruct (fetchTransactions_frame a s) as (Hw & Htb & _ & Hreq & Hts & Hf);
      rewrite Hw, Htb, Hreq, Hts, Hf
  end.
  unfold fetchTokenBalances.
  rewrite (fetchTokenBalancesOf_provider p tokens account _ Hp).
  cbn. rewrite <- !app_assoc. repeat split.
Qed.

Lemma digitValue_hexChar (d : Z) : 0 <= d < 16 -> digitValue (hexChar d) = Some d.
Proof.
  intros Hd.
  assert (Hcases : d = 0 \/ d = 1 \/ d = 2 \/ d = 3 \/ d = 4 \/ d = 5 \/ d = 6 \/ d = 7
                   \/ d = 8 \/ d = 9 \/ d = 10 \/ d = 11 \/ d = 12 \/ d = 13
                   \/ d = 14 \/ d = 15) by lia.
  repeat (destruct Hcases as [-> | Hcases]; [reflexivity|]). by subst d.
Qed.

Lemma readDigits_hexString (ds : list Z) :
  Forall (fun d => 0 <= d < 16) ds ->
  forall acc : Z,
    readDigits 16 (hexString ds) (Some acc)
    = Some (foldl (fun a d => 16 * a + d) acc ds).
Proof.
  induction 1 as [|d ds Hd _ IH]; intros acc; [reflexivity|].
  cbn [hexString readDigits foldl]. rewrite (digitValue_hexChar d Hd).
  destruct (Z.ltb_spec d 16) as [_|Hge]; [|lia]. cbn [default]. apply IH.
Qed.

Lemma parseInt_prefixed (rest : string) :
  parseInt (String "0" (String "x" rest)) (Some 16)
  = match readDigits 16 rest None with
    | Some n => numberOf n
    | None => NaN
    end.
Proof. reflexivity. Qed.

(** A hex quantity, as a provider writes it, is read back as the Number
    value of what its digits write. *)
Lemma parseInt_hexString (d : Z) (ds : list Z) :
  Forall (fun d => 0 <= d < 16) (d :: ds) ->
  parseInt ("0x" +:+ hexString (d :: ds)) (Some 16) = numberOf (digitsValue (d :: ds)).
Proof.
  intros Hds. inversion Hds as [|? ? Hd Hrest]; subst.
  change ("0x" +:+ hexString (d :: ds))
    with (String "0" (String "x" (hexString (d :: ds)))).
  rewrite parseInt_prefixed. cbn [hexString readDigits].
  rewrite (digitValue_hexChar d Hd).
  destruct (Z.ltb_spec d 16) as [_|Hge]; [|lia]. cbn [default].
  rewrite (readDigits_hexString ds Hrest). unfold digitsValue. cbn [foldl].
  reflexivity.
Qed.

Lemma entriesOf_sublist (catalog : list Token) :
  forall replies,
    ((fun entry => (symbol entry, contractAddress entry, decimals entry))
       <$> entriesOf catalog replies)
    `sublist_of`
    ((fun token => (tk_symbol token, tk_contractAddress token, tk_decimals token))
       <$> catalog).
Proof.
  unfold entriesOf.
  induction catalog as [|token rest IH]; intros [|reply replies]; cbn;
    try apply sublist_nil_l.
  specialize (IH replies).
  destruct reply as [v|e]; cbn.
  - destruct (quotPositive _ _); cbn; [by apply sublist_skip | by apply sublist_cons].
  - by apply sublist_cons.
Qed.

(** ** Connecting and refreshing *)

(** X1. When the three mandatory requests resolve, [connectWallet] ends
    connected to the first account returned, with the chain identifier read
    from the provider's answer, its network name, no error and nothing
    loading; it has asked the provider, in this order, for account access,
    the chain identifier, the balance of that account and the balance of each
    token of the catalog, has fetched the history of that account once, and
    has shown one success toast. *)
Theorem connect_success (p : Provider) (accounts chainIdHex balanceWei : RpcValue)
    (account : string) (st : Store) :
  ethereum = Some p ->
  p (requests st) eth_requestAccounts = Resolve accounts ->
  rpcFirst accounts = Some account ->
  p (requests st ++ [eth_requestAccounts]) eth_chainId = Resolve chainIdHex ->
  p (requests st ++ [eth_requestAccounts; eth_chainId])
    (eth_getBalance account "latest") = Resolve balanceWei ->
  let mandatory :=
    [eth_requestAccounts; eth_chainId; eth_getBalance account "latest"] in
  let st' := (connectWallet st).2 in
  (connectWallet st).1 = Ok tt
  /\ isConnected (walletState st') = true
  /\ address (walletState st') = Some account
  /\ chainId (walletState st') = Some (parseInt (rpcToStr chainIdHex) (Some 16))
  /\ network (walletState st')
     = Some (getNetworkName (parseInt (rpcToStr chainIdHex) (Some 16)))
  /\ is_Some (balance (walletState st'))
  /\ isLoading (walletState st') = false
  /\ error (walletState st') = None
  /\ requests st' = requests st ++ mandatory ++ (callOf account <$> tokens)
  /\ tokenBalances st'
     = entriesOf tokens (tokenReplies p (requests st ++ mandatory) account tokens)
  /\ fetched st' = fetched st ++ [historyUrl account]
  /\ toasts st' = toasts st ++ [(ToastSuccess, "Wallet connected successfully! 🎉")].
Proof.
  intros Hp Haccounts Hfirst Hchain Hbalance. cbv zeta.
  rewrite connectWallet_run. unfold connectOutcome.
  rewrite Hp, Haccounts, Hfirst, Hchain, Hbalance. unfold afterSuccess.
  cbn [fst snd toast walletState requests tokenBalances fetched toasts].
  match goal with
  | |- context [fetchTransactions ?a ?s] =>
      destruct (fetchTransactions_frame a s) as (Hw & Htb & _ & Hreq & Hts & Hf);
      rewrite Hw, Htb, Hreq, Hts, Hf
  end.
  unfold fetchTokenBalances.
  rewrite (fetchTokenBalancesOf_provider p tokens account _ Hp).
  cbn. rewrite <- !app_assoc. repeat split. by eexists.
Qed.

(** X2. A refresh whose balance request fails (no provider, or the request
    is rejected) completes and keeps what was displayed: the session, the
    token list and the transaction list are unchanged, nothing is fetched,
    the refresh flag is reset and one error toast is shown. *)
Theorem refresh_failure_keeps_data (account : string) (st : Store) :
  address (walletState st) = Some account ->
  account <> "" ->
  (ethereum = None
   \/ exists p e, ethereum = Some p
                  /\ p (requests st) (eth_getBalance account "latest") = Reject e) ->
  let st' := (refreshWalletData st).2 in
  (refreshWalletData st).1 = Ok tt
  /\ walletState st' = walletState st
  /\ tokenBalances st' = tokenBalances st
  /\ transactions st' = transactions st
  /\ isRefreshing st' = false
  /\ fetched st' = fetched st
  /\ toasts st' = toasts st ++ [(ToastError, "Failed to refresh data")].
Proof.
  intros Haddress Hpresent Hfails. cbv zeta.
  rewrite (refreshWalletData_run account st Haddress)
    by (by apply String.eqb_neq).
  cbn [fst snd].
  destruct (refreshOutcome_cases account st)
    as [(_ & Hw & Htb & Htx & Hr & Hf & Hts & _)
       | (p & balanceWei & Hp & Hreply & _)].
  - repeat split; assumption.
  - destruct Hfails as [Hnone | (p' & e & Hp' & Hreject)]; congruence.
Qed.

(** X3. A refresh whose balance request resolves replaces the balance
    and nothing else of the session (address, network, chain identifier,
    connection, loading and error are kept), asks the provider only for that
    balance and for the token balances (no accounts or chain-id request),
    fetches the history once, and ends with the refresh flag reset. *)
Theorem refresh_success (p : Provider) (account : string) (balanceWei : RpcValue)
    (st : Store) :
  ethereum = Some p ->
  address (walletState st) = Some account ->
  account <> "" ->
  p (requests st) (eth_getBalance account "latest") = Resolve balanceWei ->
  let st' := (refreshWalletData st).2 in
  (refreshWalletData st).1 = Ok tt
  /\ balance (walletState st')
     = Some (quotToFixed (parseInt (rpcToStr balanceWei) (Some 16)) 18 6)
  /\ isConnected (walletState st') = isConnected (walletState st)
  /\ address (walletState st') = Some account
  /\ network (walletState st') = network (walletState st)
  /\ chainId (walletState st') = chainId (walletState st)
  /\ isLoading (walletState st') = isLoading (walletState st)
  /\ error (walletState st') = error (walletState st)
  /\ isRefreshing st' = false
  /\ requests st'
     = requests st ++ eth_getBalance account "latest" :: (callOf account <$> tokens)
  /\ fetched st' = fetched st ++ [historyUrl account].
Proof.
  intros Hp Haddress Hpresent Hreply. cbv zeta.
  rewrite (refreshWalletData_run account st Haddress)
    by (by apply String.eqb_neq).
  cbn [fst snd].
  destruct (refreshOutcome_cases account st)
    as [([Hnone | (p' & e & Hp' & Hreject)] & _)
       | (p' & balanceWei' & Hp' & Hreply' & Hw & Hr & Hreq & _ & Hf & _)];
    try congruence.
  assert (p' = p) by congruence. subst p'.
  assert (balanceWei' = balanceWei) by congruence. subst balanceWei'.
  rewrite Hw, Hr, Hreq, Hf. cbn. repeat split. exact Haddress.
Qed.

(** ** Sequences of actions *)

Lemma settled_connect (st : Store) : settled st -> settled (connectOutcome st).
Proof.
  intros (Hshape & Hloading & Hrefreshing & Hempty).
  destruct (connectOutcome_flags st) as [Hl Hr].
  destruct (connectOutcome_cases st)
    as [(e & calls & Hfail)
       | (account & chainIdHex & balanceWei & _ & Hsession)].
  - rewrite (mandatory_failure_outcome st e calls Hfail).
    split; [exact Hshape|]. split; [reflexivity|]. split; [exact Hrefreshing|].
    exact Hempty.
  - unfold settled. rewrite Hl, Hr, Hsession.
    split; [cbn; repeat split; by eexists|]. split; [reflexivity|].
    split; [exact Hrefreshing|]. cbn. discriminate.
Qed.

Lemma settled_logRequests (l : list Request) (st : Store) :
  settled st -> settled (logRequests l st).
Proof. intros Hst. exact Hst. Qed.

Lemma settled_perform (a : Action) (st : Store) :
  settled st -> (perform a st).1 = Ok tt /\ settled (perform a st).2.
Proof.
  intros Hst. destruct a; cbn [perform].
  - rewrite checkWalletConnection_run. split; [reflexivity|]. cbn [snd].
    unfold probeOutcome. destruct ethereum as [p|]; [|exact Hst].
    destruct (p (requests st) eth_accounts) as [accounts|e];
      [|by apply settled_logRequests].
    destruct (0 <? rpcLength accounts)%nat;
      [apply settled_connect|]; by apply settled_logRequests.
  - rewrite connectWallet_run. split; [reflexivity|]. by apply settled_connect.
  - destruct Hst as (_ & _ & Hrefreshing & _).
    split; [reflexivity|]. repeat split; try assumption.
  - destruct (noAddress (walletState st)) eqn:Hnone.
    + unfold noAddress in Hnone. unfold refreshWalletData, bind, getWalletState.
      destruct (address (walletState st)) as [account|]; [|by split].
      rewrite Hnone. by split.
    + unfold noAddress in Hnone.
      destruct (address (walletState st)) as [account|] eqn:Haddress; [|discriminate].
      rewrite (refreshWalletData_run account st Haddress Hnone). cbn [fst snd].
      split; [reflexivity|].
      destruct Hst as (Hshape & Hloading & Hrefreshing & Hempty).
      assert (Hconnected : isConnected (walletState st) = true).
      { unfold sessionShape in Hshape.
        destruct (isConnected (walletState st)); [reflexivity|].
        destruct Hshape as (Hno & _). congruence. }
      destruct (refreshOutcome_cases account st)
        as [(_ & Hw & Htb & Htx & Hr & _)
           | (p & balanceWei & _ & _ & Hw & Hr & _)].
      * unfold settled. rewrite Hw, Hr, Htb, Htx.
        split; [exact Hshape|]. split; [exact Hloading|]. split; [reflexivity|].
        exact Hempty.
      * unfold settled. rewrite Hw, Hr. split.
        { unfold sessionShape in *. cbn. rewrite Hconnected in *.
          destruct Hshape as (Ha & _ & Hn & Hc).
          repeat split; try assumption. by eexists. }
        split; [exact Hloading|]. split; [reflexivity|].
        cbn. rewrite Hconnected. discriminate.
Qed.

(** The first account of a reply is not empty, unless the wallet lists the
    empty string first. *)
Lemma rpcFirst_shown (p : Provider) (history : list Request) (accounts : RpcValue)
    (account : string) :
  listsNoEmptyAccount (Some p) ->
  p history eth_requestAccounts = Resolve accounts ->
  rpcFirst accounts = Some account ->
  String.eqb account "" = false.
Proof.
  intros Hlists Hreply Hfirst.
  destruct accounts as [[|c s]|[|a others]]; try discriminate;
    injection Hfirst as <-; [reflexivity|].
  destruct (String.eqb_spec a "") as [->|_]; [|reflexivity].
  by destruct (Hlists p history others eq_refl).
Qed.

Lemma addressShown_connect (st : Store) :
  listsNoEmptyAccount ethereum -> addressShown st -> addressShown (connectOutcome st).
Proof.
  intros Hlists Hst. unfold connectOutcome.
  destruct ethereum as [p|] eqn:Hp; [|exact Hst].
  destruct (p (requests st) eth_requestAccounts) as [accounts|e] eqn:Hreply;
    [|exact Hst].
  destruct (rpcFirst accounts) as [account|] eqn:Hfirst; [|exact Hst].
  destruct (p (requests st ++ [eth_requestAccounts]) eth_chainId) as [chainIdHex|e];
    [|exact Hst].
  destruct (p _ (eth_getBalance account "latest")) as [balanceWei|e]; [|exact Hst].
  unfold addressShown, afterSuccess. cbn [toast snd walletState].
  match goal with
  | |- context [fetchTransactions ?a ?s] =>
      destruct (fetchTransactions_frame a s) as (Hw & _); rewrite Hw
  end.
  match goal with
  | |- context [fetchTokenBalances ?a ?s] =>
      destruct (fetchTokenBalances_frame a s) as (Hw' & _); rewrite Hw'
  end.
  intros _. exact (rpcFirst_shown p _ accounts account Hlists Hreply Hfirst).
Qed.

Lemma addressShown_perform (a : Action) (st : Store) :
  listsNoEmptyAccount ethereum -> addressShown st -> addressShown (perform a st).2.
Proof.
  intros Hlists Hst. destruct a; cbn [perform].
  - rewrite checkWalletConnection_run. cbn [snd].
    unfold probeOutcome. destruct ethereum as [p|] eqn:Hp; [|exact Hst].
    rewrite <- Hp in Hlists.
    destruct (p (requests st) eth_accounts) as [accounts|e]; [|exact Hst].
    destruct (0 <? rpcLength accounts)%nat; [|exact Hst].
    by apply addressShown_connect.
  - rewrite connectWallet_run. by apply addressShown_connect.
  - discriminate.
  - destruct (noAddress (walletState st)) eqn:Hnone.
    + unfold noAddress in Hnone. unfold refreshWalletData, bind, getWalletState.
      destruct (address (walletState st)) as [account|]; [|exact Hst].
      rewrite Hnone. exact Hst.
    + unfold noAddress in Hnone.
      destruct (address (walletState st)) as [account|] eqn:Haddress; [|discriminate].
      rewrite (refreshWalletData_run account st Haddress Hnone). cbn [snd].
      unfold addressShown, noAddress.
      destruct (refreshOutcome_cases account st)
        as [(_ & Hw & _) | (p & balanceWei & _ & _ & Hw & _)]; rewrite Hw.
      * intros _. by rewrite Haddress.
      * intros _. cbn. by rewrite Haddress.
Qed.

(** ** Token balances and history *)

(** X5. Whatever the provider answers, the token list that
    [fetchTokenBalances] sets follows the catalog: its entries, with their
    symbol, contract and decimals, are taken from the catalog in catalog
    order, each token at most once per occurrence, so the list is never
    longer than the catalog and has no repeated contract when the catalog has
    none; for the component's three tokens it has at most three entries, with
    distinct contracts. *)
Theorem token_entries_follow_catalog (catalog : list Token) (owner : string)
    (st : Store) :
  let shown := tokenBalances (fetchTokenBalancesOf catalog owner st).2 in
  ((fun entry => (symbol entry, contractAddress entry, decimals entry)) <$> shown)
    `sublist_of`
    ((fun token => (tk_symbol token, tk_contractAddress token, tk_decimals token))
       <$> catalog)
  /\ (length shown <= length catalog)%nat
  /\ (NoDup (tk_contractAddress <$> catalog) -> NoDup (contractAddress <$> shown))
  /\ (length (tokenBalances (fetchTokenBalances owner st).2) <= 3)%nat
  /\ NoDup (contractAddress <$> tokenBalances (fetchTokenBalances owner st).2).
Proof.
  assert (Hsub : forall cat,
            ((fun entry => (symbol entry, contractAddress entry, decimals entry))
               <$> tokenBalances (fetchTokenBalancesOf cat owner st).2)
            `sublist_of`
            ((fun token => (tk_symbol token, tk_contractAddress token, tk_decimals token))
               <$> cat)).
  { intros cat. destruct ethereum as [p|] eqn:Hp.
    - rewrite (fetchTokenBalancesOf_provider p cat owner st Hp). cbn.
      apply entriesOf_sublist.
    - rewrite (fetchTokenBalancesOf_missing cat owner st Hp). cbn.
      apply sublist_nil_l. }
  assert (Hlen : forall cat,
            (length (tokenBalances (fetchTokenBalancesOf cat owner st).2)
             <= length cat)%nat).
  { intros cat. pose proof (sublist_length _ _ (Hsub cat)) as Hle.
    by rewrite !length_fmap in Hle. }
  assert (Hnodup : forall cat,
            NoDup (tk_contractAddress <$> cat) ->
            NoDup (contractAddress
                     <$> tokenBalances (fetchTokenBalancesOf cat owner st).2)).
  { intros cat Hcat.
    pose proof (fmap_sublist (fun x : string * string * nat => x.1.2) _ _ (Hsub cat))
      as Hproj.
    rewrite <- !list_fmap_compose in Hproj.
    exact (sublist_NoDup _ (tk_contractAddress <$> cat) Hcat Hproj). }
  cbv zeta. split; [apply Hsub|]. split; [apply Hlen|]. split; [apply Hnodup|].
  unfold fetchTokenBalances. split; [apply (Hlen tokens)|].
  apply Hnodup. apply NoDup_ListNoDup. vm_compute.
  repeat constructor; simpl; intuition discriminate.
Qed.

(** X6. Fetching the history makes exactly one HTTP request and no provider
    request, and touches nothing but the transaction list: the session, the
    token list, the refresh flag and the toasts are unchanged.  The request
    goes to the Etherscan [txlist] URL of the address with [sort=desc], and
    with the API key of the environment, or "demo" when the variable is not
    set or is empty. *)
Theorem history_fetch_is_contained (owner : string) (st : Store) :
  let st' := (fetchTransactions owner st).2 in
  let base := "https://api.etherscan.io/api?module=account&action=txlist&address=" in
  walletState st' = walletState st
  /\ tokenBalances st' = tokenBalances st
  /\ isRefreshing st' = isRefreshing st
  /\ toasts st' = toasts st
  /\ requests st' = requests st
  /\ fetched st' = fetched st ++ [historyUrl owner]
  /\ (etherscanApiKey = None \/ etherscanApiKey = Some "" ->
      historyUrl owner = base +:+ owner +:+ "&sort=desc&apikey=demo")
  /\ (forall key,
        etherscanApiKey = Some key -> key <> "" ->
        historyUrl owner = base +:+ owner +:+ "&sort=desc&apikey=" +:+ key).
Proof.
  cbv zeta.
  destruct (fetchTransactions_frame owner st) as (Hw & Htb & Hr & Hreq & Hts & Hf).
  repeat split; try assumption.
  - unfold historyUrl. intros [-> | ->]; reflexivity.
  - unfold historyUrl. intros key -> Hkey. cbn [orElse].
    by destruct (String.eqb_spec key "").
Qed.

(** ** Network names and chain identifiers *)

Lemma fallback_not_registered (text : string) (id : Z) (name : string) :
  (id, name) ∈ networkTable ->
  "Unknown Network (Chain ID: " +:+ text +:+ ")" <> name.
Proof.
  unfold networkTable. rewrite !elem_of_cons, elem_of_nil.
  intros Hin Heq. subst name. cbn in Hin. intuition discriminate.
Qed.

Lemma networkTable_names_distinct (id1 id2 : Z) (name : string) :
  (id1, name) ∈ networkTable -> (id2, name) ∈ networkTable -> id1 = id2.
Proof.
  unfold networkTable. intros Hin1 Hin2.
  repeat (apply elem_of_cons in Hin1 as [Heq1 | Hin1];
          [inversion Heq1; subst; clear Heq1;
           repeat (apply elem_of_cons in Hin2 as [Heq2 | Hin2];
                   [by inversion Heq2|]);
           by apply elem_of_nil in Hin2|]).
  by apply elem_of_nil in Hin1.
Qed.

(** X7. The name shown for the network tells the chain apart: it is never
    empty, and it is a registered name only for the chain identifier that
    name is registered for (no two chains share a name, and the fallback text
    of an unknown chain is no registered name). *)
Theorem network_name_identifies_chain :
  (forall n : JsNum, getNetworkName n <> "")
  /\ (forall (n : JsNum) (id : Z) (name : string),
        (id, name) ∈ networkTable -> getNetworkName n = name -> n = Int id).
Proof.
  split.
  - intros n. unfold getNetworkName, networksAt.
    destruct n as [|z|negative]; [discriminate| |discriminate].
    destruct (networks !! z) as [name|] eqn:Hlookup; [|discriminate].
    cbn [orElse]. destruct (String.eqb_spec name "") as [_|Hname];
      [discriminate | exact Hname].
  - intros n id name Hin Hname. unfold getNetworkName, networksAt in Hname.
    destruct n as [|z|negative];
      [by apply (fallback_not_registered _ id name Hin) in Hname| |
       by apply (fallback_not_registered _ id name Hin) in Hname].
    destruct (networks !! z) as [name'|] eqn:Hlookup.
    + apply networks_lookup in Hlookup as Hin'.
      pose proof (getNetworkName_known z name' Hin') as Hknown.
      unfold getNetworkName, networksAt in Hknown. rewrite Hlookup in Hknown.
      rewrite Hknown in Hname. subst name'.
      f_equal. by apply (networkTable_names_distinct z id name).
    + by apply (fallback_not_registered _ id name Hin) in Hname.
Qed.

Lemma networkTable_exact (id : Z) (name : string) :
  (id, name) ∈ networkTable -> Z.abs id <= 2 ^ 53.
Proof.
  unfold networkTable. rewrite !elem_of_cons, elem_of_nil.
  intros Hin.
  repeat (destruct Hin as [Heq | Hin]; [injection Heq as -> _; discriminate|]).
  destruct Hin.
Qed.

Lemma digitsValue_nonneg (ds : list Z) :
  Forall (fun d => 0 <= d < 16) ds -> 0 <= digitsValue ds.
Proof.
  unfold digitsValue. intros Hds.
  assert (Hacc : forall acc, 0 <= acc -> 0 <= foldl (fun a d => 16 * a + d) acc ds).
  { induction Hds as [|d ds Hd _ IH]; intros acc Hacc; [exact Hacc|].
    cbn [foldl]. apply IH. lia. }
  by apply Hacc.
Qed.

(** X8. When the provider answers the chain-id request with a hex quantity
    ("0x" and hexadecimal digits), a successful [connectWallet] stores as
    chain identifier the Number value of what the digits write: that number
    itself up to 2^53, and the nearest double above, so that the identifier
    0x20000000000001 is stored as 9007199254740992.  The network is the name
    of the stored number, which is the registered name of what the digits
    write when that has one. *)
Theorem connect_reads_chain_id (p : Provider) (accounts balanceWei : RpcValue)
    (account : string) (d : Z) (ds : list Z) (st : Store) :
  ethereum = Some p ->
  p (requests st) eth_requestAccounts = Resolve accounts ->
  rpcFirst accounts = Some account ->
  Forall (fun d => 0 <= d < 16) (d :: ds) ->
  p (requests st ++ [eth_requestAccounts]) eth_chainId
  = Resolve (RText ("0x" +:+ hexString (d :: ds))) ->
  p (requests st ++ [eth_requestAccounts; eth_chainId])
    (eth_getBalance account "latest") = Resolve balanceWei ->
  let st' := (connectWallet st).2 in
  let written := digitsValue (d :: ds) in
  chainId (walletState st') = Some (numberOf written)
  /\ network (walletState st') = Some (getNetworkName (numberOf written))
  /\ (written <= 2 ^ 53 -> chainId (walletState st') = Some (Int written))
  /\ (d :: ds = [2; 0; 0; 0; 0; 0; 0; 0; 0; 0; 0; 0; 0; 1] ->
      written = 9007199254740993
      /\ chainId (walletState st') = Some (Int 9007199254740992))
  /\ (forall name,
        (written, name) ∈ networkTable ->
        network (walletState st') = Some name).
Proof.
  intros Hp Haccounts Hfirst Hdigits Hchain Hbalance. cbv zeta.
  rewrite connectWallet_run. cbn [snd].
  assert (Hsame : connectOutcome st = afterSuccess account
                    (RText ("0x" +:+ hexString (d :: ds))) balanceWei st).
  { unfold connectOutcome. by rewrite Hp, Haccounts, Hfirst, Hchain, Hbalance. }
  assert (Hsession' : walletState (connectOutcome st)
                      = connectedSession account
                          (RText ("0x" +:+ hexString (d :: ds))) balanceWei).
  { rewrite Hsame. unfold afterSuccess. cbn [toast snd walletState].
    match goal with
    | |- context [fetchTransactions ?a ?s] =>
        destruct (fetchTransactions_frame a s) as (Hw & _); rewrite Hw
    end.
    match goal with
    | |- context [fetchTokenBalances ?a ?s] =>
        destruct (fetchTokenBalances_frame a s) as (Hw' & _); rewrite Hw'
    end.
    reflexivity. }
  rewrite Hsession'. cbn [chainId network connectedSession rpcToStr].
  rewrite (parseInt_hexString d ds Hdigits).
  pose proof (digitsValue_nonneg (d :: ds) Hdigits) as Hnonneg.
  split; [reflexivity|]. split; [reflexivity|].
  split; [intros Hsafe; by rewrite numberOf_exact by lia|].
  split; [intros ->; split; reflexivity|].
  intros name Hin.
  rewrite numberOf_exact by (by apply (networkTable_exact _ name)).
  by rewrite (getNetworkName_known _ name Hin).
Qed.

(** ** Labels and links *)

Lemma takeChars_append (a rest : string) : takeChars (String.length a) (a +:+ rest) = a.
Proof. induction a as [|c a IH]; [by destruct rest | cbn; f_equal; exact IH]. Qed.

Lemma dropChars_append (a rest : string) : dropChars (String.length a) (a +:+ rest) = rest.
Proof. induction a as [|c a IH]; cbn; [reflexivity | exact IH]. Qed.

Lemma append_associative (a b c : string) : (a +:+ b) +:+ c = a +:+ b +:+ c.
Proof.
  induction a as [|x a IH]; [reflexivity|].
  change (String x ((a +:+ b) +:+ c) = String x (a +:+ b +:+ c)). by rewrite IH.
Qed.

Lemma takeChars_all (n : nat) (s : string) :
  (String.length s <= n)%nat -> takeChars n s = s.
Proof.
  revert n. induction s as [|c s IH]; intros [|n] Hlen; cbn in *;
    try reflexivity; try lia.
  rewrite IH by lia. reflexivity.
Qed.

(** X9. [formatAddress] shortens a string to its first six characters, an
    ellipsis and its last four characters, thirteen characters in all, when
    it has at least six; a string of at most four characters is not shortened
    but shown whole on both sides of the ellipsis. *)
Theorem formatAddress_shortens :
  (forall first middle last : string,
      String.length first = 6%nat ->
      String.length last = 4%nat ->
      formatAddress (JStr (first +:+ middle +:+ last))
      = Some (first +:+ "..." +:+ last))
  /\ (forall s label,
        (6 <= String.length s)%nat ->
        formatAddress (JStr s) = Some label ->
        String.length label = 13%nat)
  /\ (forall s,
        (String.length s <= 4)%nat ->
        formatAddress (JStr s) = Some (s +:+ "..." +:+ s)).
Proof.
  assert (Hlen_take : forall n s, String.length (takeChars n s)
                                  = Nat.min n (String.length s)).
  { induction n as [|n IH]; intros [|c s]; cbn; try reflexivity. by rewrite IH. }
  assert (Hlen_drop : forall n s, String.length (dropChars n s)
                                  = (String.length s - n)%nat).
  { induction n as [|n IH]; intros [|c s]; cbn; try reflexivity; try lia. by rewrite IH. }
  split; [|split].
  - intros first middle last Hfirst Hlast. unfold formatAddress, lastChars. f_equal.
    rewrite <- Hfirst at 1. rewrite takeChars_append. f_equal. f_equal.
    rewrite <- append_associative.
    rewrite length_append, Hlast.
    replace (String.length (first +:+ middle) + 4 - 4)%nat
      with (String.length (first +:+ middle)) by lia.
    apply dropChars_append.
  - intros s label Hlong Hlabel.
    assert (Hl : label = takeChars 6 s +:+ "..." +:+ lastChars 4 s)
      by (unfold formatAddress in Hlabel; congruence).
    subst label. unfold lastChars.
    rewrite !length_append, Hlen_take, Hlen_drop.
    change (String.length "...") with 3%nat. lia.
  - intros s Hshort. unfold formatAddress, lastChars. f_equal.
    rewrite takeChars_all by lia.
    replace (String.length s - 4)%nat with 0%nat by lia. reflexivity.
Qed.

(** X10. For a record that the history normalisation accepts, the row of
    the history list shows "Contract Creation" as recipient when the record's
    [to] is absent, [null] or empty, and the shortened address when it is a
    non-empty string; the sender cell is the shortened [from] when that is a
    string, and evaluating it raises when the record has no [from]. *)
Theorem history_row_labels (tx : JsVal) (r : Transaction) (st st' : Store) :
  formatTransaction tx st = (Ok r, st') ->
  (truthy (field tx "to") = false -> recipientLabel r = Some "Contract Creation")
  /\ (forall s,
        field tx "to" = JStr s -> s <> "" ->
        recipientLabel r = formatAddress (JStr s)
        /\ is_Some (recipientLabel r))
  /\ (forall s,
        field tx "from" = JStr s ->
        senderLabel r = formatAddress (JStr s) /\ is_Some (senderLabel r))
  /\ (isNullish (field tx "from") = true -> senderLabel r = None).
Proof.
  intros Hrun.
  assert (Hr : normalise tx = Some r).
  { destruct (formatTransaction_run tx st) as (res & Hres & Hnorm).
    rewrite Hrun in Hres. injection Hres as <- _.
    destruct (normalise tx) as [t|]; [congruence | by destruct Hnorm]. }
  destruct (normalise_fields tx r Hr) as (_ & Hsender & Hrecipient & _).
  unfold recipientLabel, senderLabel. rewrite Hsender, Hrecipient.
  split; [by intros ->|].
  split.
  { intros s Hto Hs. rewrite Hto. cbn [truthy].
    destruct (String.eqb_spec s "") as [|_]; [contradiction|]. cbn.
    split; [reflexivity | by eexists]. }
  split.
  { intros s Hfrom. rewrite Hfrom. split; [reflexivity | by eexists]. }
  intros Hnull. by destruct (field tx "from").
Qed.

(** X11. The address link opens nothing without an address or a chain
    identifier, while the transaction link opens for every hash that converts
    to a string, as every string does.  With both present, the two links go
    to the same explorer, Polygonscan for chain 137 and Etherscan for every
    other chain, except on chain 56: there the address link goes to BscScan
    and the transaction link to Etherscan. *)
Theorem explorer_links (ws : WalletState) (txHash : JsVal) :
  (noAddress ws = true \/ noChainId ws = true -> openInExplorer ws = None)
  /\ (forall account z,
        address ws = Some account -> account <> "" ->
        chainId ws = Some (Int z) -> z <> 0 ->
        exists host,
          openInExplorer ws = Some (host +:+ "/address/" +:+ account)
          /\ (z = 137 -> host = "https://polygonscan.com")
          /\ (z = 56 -> host = "https://bscscan.com")
          /\ (z <> 137 -> z <> 56 -> host = "https://etherscan.io")
          /\ (z <> 56 ->
              openTransactionInExplorer ws txHash
              = (fun text => host +:+ "/tx/" +:+ text) <$> toStr txHash)
          /\ (z = 56 ->
              openTransactionInExplorer ws txHash
              = (fun text => "https://etherscan.io/tx/" +:+ text) <$> toStr txHash))
  /\ (chainId ws = None ->
      openTransactionInExplorer ws txHash
      = (fun text => "https://etherscan.io/tx/" +:+ text) <$> toStr txHash)
  /\ (is_Some (openTransactionInExplorer ws txHash) <-> is_Some (toStr txHash))
  /\ (forall s, toStr (JStr s) = Some s).
Proof.
  split; [|split; [|split; [|split]]].
  - unfold openInExplorer. intros [-> | ->]; [reflexivity | by rewrite orb_true_r].
  - intros account z Haddress Hpresent Hchain Hz.
    unfold openInExplorer, openTransactionInExplorer, noAddress, noChainId.
    rewrite Haddress, Hchain.
    destruct (String.eqb_spec account "") as [|_]; [contradiction|].
    destruct (Z.eqb_spec z 0) as [|_]; [contradiction|]. cbn [orb].
    destruct (Z.eqb_spec z 1) as [->|H1].
    { exists "https://etherscan.io".
      destruct (toStr txHash); repeat split; intros; first [reflexivity | lia]. }
    destruct (Z.eqb_spec z 137) as [->|H137].
    { exists "https://polygonscan.com".
      destruct (toStr txHash); repeat split; intros; first [reflexivity | lia]. }
    destruct (Z.eqb_spec z 56) as [->|H56].
    { exists "https://bscscan.com".
      destruct (toStr txHash); repeat split; intros; first [reflexivity | lia]. }
    exists "https://etherscan.io".
    destruct (toStr txHash) as [text|]; repeat split; intros;
      try reflexivity; try lia.
    cbn. f_equal.
    destruct z as [|[q|q|]|]; try reflexivity; try lia.
    all: repeat (destruct q as [q|q|]; try reflexivity; try lia).
  - intros Hnone. unfold openTransactionInExplorer. rewrite Hnone.
    by destruct (toStr txHash).
  - unfold openTransactionInExplorer.
    destruct (toStr txHash) as [text|]; split; intros [x Hx];
      first [discriminate | by eexists].
  - reflexivity.
Qed.

End Further.

(** * Series of actions *)

Section SeriesProperties.
Context `{Engine}.

(** X4. Take a wallet that answers each request with a string or a list
    of strings, as the methods used are specified to, or rejects it, and a
    history service that answers anything; both may change from one action to
    the next.  Every series of actions (startup probe, connect, disconnect,
    refresh) started from the initial state and run one after the other
    leaves a store in which the session is connected with address, balance,
    network and chain identifier all set (none is [null]), or disconnected
    with all four [null] and no token or transaction listed; and in which
    neither the loading flag nor the refresh flag is set.  Every action
    completes without raising.  The address of a connected session is not the
    empty string, provided the wallet never lists the empty string as its
    first account. *)
Theorem actions_keep_session_shape (steps : list (Browser * Action)) :
  let st := performSeries steps initialStore in
  settled st
  /\ (forall done surroundings a rest,
        steps = done ++ (surroundings, a) :: rest ->
        (@perform _ surroundings a (performSeries done initialStore)).1 = Ok tt)
  /\ (Forall (fun step => listsNoEmptyAccount (@ethereum step.1)) steps ->
      addressShown st).
Proof.
  assert (Hinit : settled initialStore) by (repeat split).
  assert (Hall : forall l st, settled st -> settled (performSeries l st)).
  { induction l as [|[surroundings a] l IH]; intros st Hst; [exact Hst|].
    cbn [performSeries]. apply IH. by apply settled_perform. }
  assert (Hshown : forall l st,
            Forall (fun step => listsNoEmptyAccount (@ethereum step.1)) l ->
            addressShown st -> addressShown (performSeries l st)).
  { induction l as [|[surroundings a] l IH]; intros st Hl Hst; [exact Hst|].
    apply Forall_cons in Hl as [Hfirst Hrest].
    cbn [performSeries]. apply IH; [exact Hrest|].
    by apply addressShown_perform. }
  cbv zeta. split; [by apply Hall|]. split.
  - intros done surroundings a rest _. apply settled_perform. by apply Hall.
  - intros Hlists. apply Hshown; [exact Hlists | discriminate].
Qed.

End SeriesProperties.

(** * Properties of the API route *)

Section RouteProperties.
Context `{Engine} `{Ethers} `{Doubles}.

Lemma balanceRequestFor_Some (action address : option string) (account : string) :
  balanceRequestFor action address = Some account
  <-> action = Some "balance" /\ address = Some account /\ account <> "".
Proof.
  unfold balanceRequestFor, isText.
  destruct action as [a|]; [|split; [discriminate | intros (Ha & _); discriminate]].
  destruct (String.eqb_spec a "balance") as [->|Hne].
  - destruct address as [b|]; [|split; [discriminate | intros (_ & Hb & _); discriminate]].
    destruct (String.eqb_spec b "") as [->|Hb].
    + split; [discriminate | intros (_ & Heq & Hne); congruence].
    + split; [intros Heq | intros (_ & Heq & _)]; [|congruence].
      injection Heq as ->. auto.
  - split; [discriminate | intros (Heq & _); congruence].
Qed.

(** X12. [GET] answers a parsed query with status 200 or 400, and with 200
    exactly for [action=info] (whatever the address) and for [action=balance]
    with a non-empty address that [ethers.isAddress] accepts.  A rejected
    address is answered "Invalid Ethereum address"; a balance request with no
    address, or an empty one, is answered with the invalid-action message, as
    is every other action; a URL that does not parse is answered 500. *)
Theorem GET_answers (get : string -> option string) :
  let r := GET (UrlParams get) in
  let invalidAction :=
    respondWith
      (ErrorBody "Invalid action. Use ?action=info or ?action=balance&address=0x..."
         None) 400 in
  (httpStatus r = 200 \/ httpStatus r = 400)
  /\ (httpStatus r = 200 <->
      get "action" = Some "info"
      \/ (get "action" = Some "balance"
          /\ exists account, get "address" = Some account /\ account <> ""
                             /\ isAddress (JStr account) = true))
  /\ (get "action" = Some "info" ->
      exists info, r = respond (InfoBody info)
                   /\ bi_network info = "Ethereum Mainnet")
  /\ (forall account,
        get "action" = Some "balance" -> get "address" = Some account ->
        account <> "" -> isAddress (JStr account) = false ->
        r = respondWith (ErrorBody "Invalid Ethereum address" None) 400)
  /\ (get "action" = Some "balance" ->
      get "address" = None \/ get "address" = Some "" ->
      r = invalidAction)
  /\ (get "action" <> Some "info" -> get "action" <> Some "balance" ->
      r = invalidAction)
  /\ (forall e,
        GET (UrlInvalid e)
        = respondWith
            (ErrorBody "Internal server error" (Some (messageOf e "Unknown error")))
            500).
Proof.
  cbv zeta. unfold GET.
  assert (Hinfo : isText (get "action") "info" = true <-> get "action" = Some "info").
  { unfold isText. destruct (get "action") as [a|]; [|split; discriminate].
    destruct (String.eqb_spec a "info"); split; congruence. }
  destruct (isText (get "action") "info") eqn:Hi.
  { assert (Haction : get "action" = Some "info") by (by apply Hinfo).
    split; [by left|]. split; [split; auto|].
    split; [intros _; eexists; split; reflexivity|].
    split; [intros account Hb; congruence|].
    split; [intros Hb; congruence|].
    split; [intros Hne; contradiction | reflexivity]. }
  assert (Hnotinfo : get "action" <> Some "info")
    by (intros Ha; apply Hinfo in Ha; discriminate).
  destruct (balanceRequestFor (get "action") (get "address")) as [account|] eqn:Hb.
  - apply balanceRequestFor_Some in Hb as (Haction & Haddress & Hpresent).
    destruct (isAddress (JStr account)) eqn:Hvalid; cbn [negb].
    + split; [by left|]. split.
      { split; [intros _; right; eauto | reflexivity]. }
      split; [contradiction|].
      split; [intros a _ Ha _ Hinv; congruence|].
      split; [intros _ [Hn | Hn]; congruence|].
      split; [intros _ Hn; contradiction | reflexivity].
    + split; [by right|]. split.
      { split; [discriminate|].
        intros [Hi' | (_ & a & Ha & _ & Hv)]; [contradiction | exfalso; congruence]. }
      split; [contradiction|].
      split; [reflexivity|].
      split; [intros _ [Hn | Hn]; congruence|].
      split; [intros _ Hn; contradiction | reflexivity].
  - assert (Hnone : ~ (get "action" = Some "balance"
                       /\ exists a, get "address" = Some a /\ a <> ""))
      by (intros (Ha & a & Haddr & Hne);
          assert (balanceRequestFor (get "action") (get "address") = Some a)
            by (by apply balanceRequestFor_Some); congruence).
    split; [by right|]. split.
    { split; [discriminate|].
      intros [Hi' | (Ha & a & Haddr & Hne & _)]; [contradiction|].
      exfalso. apply Hnone. eauto. }
    split; [contradiction|].
    split; [intros a Ha Haddr Hne _; exfalso; apply Hnone; eauto|].
    split; [reflexivity|]. split; reflexivity.
Qed.

(** X13. A balance request that [GET] accepts is answered with the address
    it was asked for and with three tokens, which are the tokens of the
    page's catalog, with the same symbols and contract addresses in the same
    order. *)
Theorem GET_balance_lists_catalog (get : string -> option string) (account : string) :
  get "action" = Some "balance" ->
  get "address" = Some account ->
  account <> "" ->
  isAddress (JStr account) = true ->
  exists response,
    GET (UrlParams get) = respond (BalanceBody response)
    /\ br_address response = account
    /\ ((fun token => (at_symbol token, at_contractAddress token))
          <$> br_tokens response)
       = ((fun token => (tk_symbol token, tk_contractAddress token)) <$> tokens).
Proof.
  intros Haction Haddress Hpresent Hvalid. unfold GET.
  assert (Hb : balanceRequestFor (get "action") (get "address") = Some account)
    by (by apply balanceRequestFor_Some).
  rewrite Haction, Haddress in *. cbn [isText String.eqb Ascii.eqb Bool.eqb].
  rewrite Hb, Hvalid. cbn [negb].
  eexists. split; [reflexivity|]. split; reflexivity.
Qed.

Lemma POST_body (body : JsVal) :
  isNullish body = false ->
  POST (BodyJson body)
  = if negb (truthy (field body "to")) || negb (truthy (field body "value")) then
      respondWith (ErrorBody "Missing required fields: to, value" None) 400
    else if negb (isAddress (field body "to")) then
      respondWith (ErrorBody "Invalid recipient address" None) 400
    else mockEstimate.
Proof.
  intros Hbody. unfold POST, field.
  destruct body; first [discriminate | reflexivity].
Qed.

(** X14. [POST] answers 200, 400 or 500.  It answers 200 exactly when the
    body is JSON, is not [null], has truthy [to] and [value], and
    [ethers.isAddress] accepts [to]; a missing or falsy [to] or [value] (the
    number 0 included) is reported before the address is looked at; a body
    that is not JSON, or is [null], is answered 500 "Transaction failed". *)
Theorem POST_validates (request : Body) :
  let r := POST request in
  (httpStatus r = 200 \/ httpStatus r = 400 \/ httpStatus r = 500)
  /\ (httpStatus r = 200 <->
      exists body, request = BodyJson body
                   /\ isNullish body = false
                   /\ truthy (field body "to") = true
                   /\ truthy (field body "value") = true
                   /\ isAddress (field body "to") = true)
  /\ (forall body,
        request = BodyJson body -> isNullish body = false ->
        truthy (field body "to") = false \/ truthy (field body "value") = false ->
        r = respondWith (ErrorBody "Missing required fields: to, value" None) 400)
  /\ (forall body,
        request = BodyJson body -> isNullish body = false ->
        field body "value" = JNum "0" ->
        r = respondWith (ErrorBody "Missing required fields: to, value" None) 400)
  /\ (forall body,
        request = BodyJson body -> isNullish body = false ->
        truthy (field body "to") = true -> truthy (field body "value") = true ->
        isAddress (field body "to") = false ->
        r = respondWith (ErrorBody "Invalid recipient address" None) 400)
  /\ (forall e,
        request = BodyInvalid e ->
        r = respondWith
              (ErrorBody "Transaction failed" (Some (messageOf e "Unknown error")))
              500)
  /\ (forall body,
        request = BodyJson body -> isNullish body = true ->
        exists message, r = respondWith (ErrorBody "Transaction failed" (Some message)) 500).
Proof.
  cbv zeta.
  destruct request as [e|body].
  { split; [by right; right|]. split.
    { split; [discriminate | intros (b & Hb & _); discriminate]. }
    repeat split; try (intros b Hb; discriminate).
    intros e' He. by injection He as ->. }
  destruct (isNullish body) eqn:Hnull.
  { assert (Hrun : POST (BodyJson body)
                   = transactionFailed (ErrorObj (typeErrorMessage "{ to, value, data }")))
      by (destruct body; try discriminate; reflexivity).
    rewrite Hrun.
    split; [by right; right|]. split.
    { split; [discriminate | intros (b & Hb & Hn & _); congruence]. }
    split; [intros b Hb Hn; congruence|].
    split; [intros b Hb Hn; congruence|].
    split; [intros b Hb Hn; congruence|].
    split; [intros e He; discriminate|].
    intros b _ _. by eexists. }
  rewrite (POST_body body Hnull).
  destruct (truthy (field body "to")) eqn:Hto; cbn [negb orb].
  2: { split; [by right; left|]. split.
       { split; [discriminate|]. intros (b & Hb & _ & Ht & _).
         injection Hb as <-. congruence. }
       split; [reflexivity|]. split; [reflexivity|].
       split; [intros b Hb _ Ht; injection Hb as <-; congruence|].
       split; [intros e He; discriminate | intros b Hb Hn; injection Hb as <-; congruence]. }
  destruct (truthy (field body "value")) eqn:Hvalue; cbn [negb orb].
  2: { split; [by right; left|]. split.
       { split; [discriminate|]. intros (b & Hb & _ & _ & Hv & _).
         injection Hb as <-. congruence. }
       split; [reflexivity|]. split; [reflexivity|].
       split; [intros b Hb _ _ Hv; injection Hb as <-; congruence|].
       split; [intros e He; discriminate | intros b Hb Hn; injection Hb as <-; congruence]. }
  destruct (isAddress (field body "to")) eqn:Hvalid; cbn [negb].
  - split; [by left|]. split.
    { split; [intros _; exists body; auto | reflexivity]. }
    split; [intros b Hb _ [Hf | Hf]; injection Hb as <-; congruence|].
    split.
    { intros b Hb _ Hzero. injection Hb as <-. rewrite Hzero in Hvalue. discriminate. }
    split; [intros b Hb _ _ _ Hv; injection Hb as <-; congruence|].
    split; [intros e He; discriminate | intros b Hb Hn; injection Hb as <-; congruence].
  - split; [by right; left|]. split.
    { split; [discriminate|]. intros (b & Hb & _ & _ & _ & Hv).
      injection Hb as <-. congruence. }
    split; [intros b Hb _ [Hf | Hf]; injection Hb as <-; congruence|].
    split.
    { intros b Hb _ Hzero. injection Hb as <-. rewrite Hzero in Hvalue. discriminate. }
    split; [reflexivity|].
    split; [intros e He; discriminate | intros b Hb Hn; injection Hb as <-; congruence].
Qed.

(** X15. For the same random draws, the answer of [POST] depends on nothing
    of the body but its [to] and whether its [value] is truthy: the [data]
    field, any other field and the amount in [value] do not change the
    answer. *)
Theorem POST_reads_to_and_value_only (body body' : JsVal) :
  isNullish body = false ->
  isNullish body' = false ->
  field body "to" = field body' "to" ->
  truthy (field body "value") = truthy (field body' "value") ->
  POST (BodyJson body) = POST (BodyJson body').
Proof.
  intros Hbody Hbody' Hto Hvalue.
  rewrite (POST_body body Hbody), (POST_body body' Hbody').
  by rewrite Hto, Hvalue.
Qed.

End RouteProperties.

(** ** The further properties on the sample surroundings *)

(** A wallet that lists the empty string as its account gets a connected
    session whose address counts as no address. *)
Example empty_account_connects :
  isConnected (walletState (@connectWallet exactEngine emptyAccountBrowser initialStore).2)
  = true
  /\ address (walletState (@connectWallet exactEngine emptyAccountBrowser initialStore).2)
     = Some ""
  /\ noAddress (walletState (@connectWallet exactEngine emptyAccountBrowser initialStore).2)
     = true.
Proof. repeat split. Qed.

(** X1 on the sample wallet: the session ends connected to the sample
    account. *)
Lemma connect_success_witness :
  rpcFirst (RList [sampleAccount]) = Some sampleAccount
  /\ isConnected (walletState (@connectWallet exactEngine sampleBrowser initialStore).2)
     = true
  /\ address (walletState (@connectWallet exactEngine sampleBrowser initialStore).2)
     = Some sampleAccount.
Proof.
  split; [reflexivity|].
  destruct (@connect_success exactEngine sampleBrowser
              (sampleProvider (usdcReverts "0x0f4240"))
              (RList [sampleAccount]) (RText "0x1") (RText "0xDE0B6B3A7640000")
              sampleAccount initialStore eq_refl eq_refl eq_refl eq_refl eq_refl)
    as (_ & Hconnected & Haddress & _).
  split; [exact Hconnected | exact Haddress].
Defined.

(** X2 on a connected session whose wallet now declines the balance
    request. *)
Lemma refresh_failure_keeps_data_witness :
  address (walletState connectedStore) = Some sampleAccount
  /\ walletState (@refreshWalletData exactEngine refusedBrowser connectedStore).2
     = walletState connectedStore
  /\ tokenBalances (@refreshWalletData exactEngine refusedBrowser connectedStore).2
     = tokenBalances connectedStore.
Proof.
  split; [reflexivity|].
  assert (Hpresent : sampleAccount <> "") by discriminate.
  destruct (@refresh_failure_keeps_data exactEngine refusedBrowser sampleAccount
              connectedStore eq_refl Hpresent
              (or_intror
                 (ex_intro _ refusingProvider
                    (ex_intro _ (ErrorObj "User rejected the request.")
                       (conj eq_refl eq_refl)))))
    as (_ & Hsession & Htokens & _).
  split; [exact Hsession | exact Htokens].
Defined.

(** X3 on a connected session and the sample wallet. *)
Lemma refresh_success_witness :
  address (walletState connectedStore) = Some sampleAccount
  /\ requests (@refreshWalletData exactEngine sampleBrowser connectedStore).2
     = eth_getBalance sampleAccount "latest" :: (callOf sampleAccount <$> tokens)
  /\ isRefreshing (@refreshWalletData exactEngine sampleBrowser connectedStore).2
     = false.
Proof.
  split; [reflexivity|].
  assert (Hpresent : sampleAccount <> "") by discriminate.
  destruct (@refresh_success exactEngine sampleBrowser
              (sampleProvider (usdcReverts "0x0f4240")) sampleAccount
              (RText "0xDE0B6B3A7640000") connectedStore eq_refl eq_refl Hpresent
              eq_refl)
    as (_ & _ & _ & _ & _ & _ & _ & _ & Hrefreshing & Hrequests & _).
  split; [exact Hrequests | exact Hrefreshing].
Defined.

(** X8 on the sample wallet, whose chain identifier is "0x1". *)
Lemma connect_reads_chain_id_witness :
  Forall (fun d => 0 <= d < 16) [1]
  /\ chainId (walletState (@connectWallet exactEngine sampleBrowser initialStore).2)
     = Some (Int 1)
  /\ network (walletState (@connectWallet exactEngine sampleBrowser initialStore).2)
     = Some "Ethereum Mainnet".
Proof.
  assert (Hdigits : Forall (fun d => 0 <= d < 16) [1])
    by (repeat constructor; lia).
  split; [exact Hdigits|].
  destruct (@connect_reads_chain_id exactEngine sampleBrowser
              (sampleProvider (usdcReverts "0x0f4240"))
              (RList [sampleAccount]) (RText "0xDE0B6B3A7640000")
              sampleAccount 1 [] initialStore eq_refl eq_refl eq_refl Hdigits
              eq_refl eq_refl)
    as (_ & _ & Hchain & _ & Hname).
  split; [apply Hchain; discriminate|].
  apply Hname. unfold networkTable. apply list_elem_of_here.
Defined.

(** X10 on a sample record of the history service. *)
Lemma history_row_labels_witness :
  exists r,
    @formatTransaction exactEngine (sampleRecord 1700001200 "0") initialStore
    = (Ok r, initialStore)
    /\ senderLabel r = Some "0xdAC1...1ec7"
    /\ recipientLabel r = Some "0x9876...5432".
Proof.
  eexists. split; [reflexivity|].
  destruct (@history_row_labels exactEngine (sampleRecord 1700001200 "0") _
              initialStore initialStore eq_refl)
    as (_ & Hrecipient & Hsender & _).
  split.
  - exact (proj1 (Hsender sampleAccount eq_refl)).
  - assert (Hpresent : "0x9876543210fedcba9876543210fedcba98765432" <> "")
      by discriminate.
    exact (proj1 (Hrecipient _ eq_refl Hpresent)).
Defined.

(** X13 on the balance query for the sample account. *)
Lemma GET_balance_lists_catalog_witness :
  @isAddress sampleEthers (JStr sampleAccount) = true
  /\ exists response,
       @GET sampleEthers noDoubles (UrlParams sampleQuery)
       = @respond noDoubles (@BalanceBody noDoubles response)
       /\ @br_address noDoubles response = sampleAccount.
Proof.
  split; [reflexivity|].
  assert (Hpresent : sampleAccount <> "") by discriminate.
  destruct (@GET_balance_lists_catalog sampleEthers noDoubles sampleQuery
              sampleAccount eq_refl eq_refl Hpresent eq_refl)
    as (response & Hrun & Haddress & _).
  exists response. split; [exact Hrun | exact Haddress].
Defined.

(** X15 on two bodies that differ in their data and in the amount. *)
Lemma POST_reads_to_and_value_only_witness :
  @POST exactEngine sampleEthers noDoubles
    (BodyJson (JObj [("to", JStr sampleAccount); ("value", JStr "1");
                     ("data", JStr "0x")]))
  = @POST exactEngine sampleEthers noDoubles
      (BodyJson (JObj [("to", JStr sampleAccount); ("value", JStr "25000")])).
Proof.
  apply (@POST_reads_to_and_value_only exactEngine sampleEthers noDoubles);
    reflexivity.
Defined.
